(** * Stock dashboard: valuation transform, totals and persistence

    A shallow embedding of [dashboard.py].

    - Python floats are IEEE binary64 numbers and are modelled by Rocq's
      primitive floats, whose operations are specified by [FloatAxioms]; a
      value that may be [None] is an [option].  The numbers of the market
      data are taken to be floats.
    - The market-data provider is a function from tickers to answers, an
      answer being the information bundle or an exception.
    - The worksheet is a list of rows of cells that keeps what is appended to
      it; each remote call succeeds or raises as a list of outcomes says.
    - Which texts the spreadsheet client and pandas read as numbers is left
      open: it is a parameter of the model, and what is proved holds for
      every such reading.
    - A run of the script is a computation over the worksheet, the page and
      the tables of the session.  Tables are named by their position in a
      heap, so that two names for one table see each other's updates. *)

From Stdlib Require Import ZArith Floats List String Ascii Bool Lia.
From Stdlib Require Import DecimalString.
From stdpp Require Import base list.
Import ListNotations.

Set Warnings "-inexact-float".

(** ** Python numbers *)

Module Py.

(** Nearest integer to [n / d] for [d > 0], ties to the even neighbour. *)
Definition round_half_even (n d : Z) : Z :=
  let q := (n / d)%Z in
  match (2 * (n mod d) ?= d)%Z with
  | Lt => q
  | Gt => (q + 1)%Z
  | Eq => if Z.even q then q else (q + 1)%Z
  end.

(** [round(x, ndigits)] on a float, for [ndigits >= 0]: the exact binary
    value [m * 2^e] of [x] is rounded to [ndigits] decimals (ties to even)
    and the decimal [n / 10^ndigits] is converted back to the nearest float;
    the sign survives a result of zero; infinities and NaN round to
    themselves, and so does a float without fractional bits ([e >= 0]). *)
Definition round (x : float) (ndigits : nat) : float :=
  match Prim2SF x with
  | S754_finite s m e =>
      if (0 <=? e)%Z then x
      else
        let p := (10 ^ Z.of_nat ndigits)%Z in
        match round_half_even (Zpos m * p) (2 ^ (- e)) with
        | Zpos n =>
            SF2Prim (SFdiv prec emax (S754_finite s n 0)
                                     (S754_finite false (Z.to_pos p) 0))
        | _ => if s then PrimFloat.neg_zero else PrimFloat.zero
        end
  | _ => x
  end.

(** [bool(x)] for a float: [x != 0.0], so NaN is truthy and [-0.0] is not. *)
Definition truthy (x : float) : bool := negb (x =? 0)%float.

(** Truthiness of a value that is a number or [None]. *)
Definition truthy_opt (o : option float) : bool :=
  match o with
  | Some x => truthy x
  | None => false
  end.

(** [a or b]. *)
Definition or_ (a b : option float) : option float :=
  if truthy_opt a then a else b.

(** [pd.notna] on a numeric cell: neither [None] nor NaN. *)
Definition notna (o : option float) : bool :=
  match o with
  | Some x => negb (is_nan x)
  | None => false
  end.

(** [sum(xs)]: the items are added from left to right, starting from 0
    (the integer 0 and the float 0.0 are the same number). *)
Definition sum (xs : list float) : float :=
  fold_left (fun acc x => (acc + x)%float) xs 0%float.

Definition is_space (a : ascii) : bool :=
  let n := nat_of_ascii a in
  ((9 <=? n) && (n <=? 13) || (28 <=? n) && (n <=? 32))%nat.

Fixpoint lstrip (s : string) : string :=
  match s with
  | String a s' => if is_space a then lstrip s' else s
  | EmptyString => EmptyString
  end.

Fixpoint rstrip (s : string) : string :=
  match s with
  | String a s' =>
      match rstrip s' with
      | EmptyString => if is_space a then EmptyString else String a EmptyString
      | r => String a r
      end
  | EmptyString => EmptyString
  end.

(** [s.strip()]: leading and trailing whitespace removed. *)
Definition strip (s : string) : string := rstrip (lstrip s).

Definition upper_ascii (a : ascii) : ascii :=
  let n := nat_of_ascii a in
  if ((97 <=? n) && (n <=? 122))%nat then ascii_of_nat (n - 32) else a.

(** [s.upper()] on the ASCII letters; other characters are kept. *)
Fixpoint upper (s : string) : string :=
  match s with
  | String a s' => String (upper_ascii a) (upper s')
  | EmptyString => EmptyString
  end.

(** Truthiness of a string: non-empty. *)
Definition nonempty (s : string) : bool :=
  match s with
  | EmptyString => false
  | String _ _ => true
  end.

End Py.

(** ** Data model *)

(** What the page shows with [st.warning], [st.error] and [st.success]. *)
Inductive ui_event :=
| UiWarning (msg : string)
| UiError (msg : string)
| UiSuccess (msg : string).

(** One row of the edited holdings table, as [iterrows] yields it: the
    ticker is text or missing, the three number columns hold a float or are
    missing ([None]; a NaN cell is missing too). *)
Record HoldingRow := {
  Ticker : option string;
  Shares : option float;
  BuyPrice : option float;
  YourTargetPrice : option float
}.

(** The keys of [stock.info] that the page reads; [info.get] gives [None]
    for a key that is not there. *)
Record Info := {
  currentPrice : option float;
  regularMarketPrice : option float;
  targetMeanPrice : option float
}.

(** [yf.Ticker(ticker).info] either raises (with the text of the exception)
    or returns the information bundle. *)
Inductive fetched :=
| Raised (e : string)
| Fetched (info : Info).

Definition provider := string -> fetched.

(** The local variables of the loop body after lines 76-79. *)
Record Inputs := {
  ticker : string;
  shares : float;
  buy_price : float;
  your_target : option float
}.

(** The seven values the loop body appends for one row. *)
Record Derived := {
  price : option float;
  value : option float;
  cost : option float;
  profit_dollar : option float;
  profit_pct : option float;
  analyst : option float;
  upside : option float
}.

(** The seven lists filled by the loop, which become the new columns. *)
Record Columns := {
  current_prices : list (option float);
  current_values : list (option float);
  total_costs : list (option float);
  profits_dollar : list (option float);
  profits_pct : list (option float);
  analyst_targets : list (option float);
  analyst_upside : list (option float)
}.

(** A value is present. *)
Definition has (o : option float) : bool :=
  match o with
  | Some _ => true
  | None => false
  end.

(** ** The refresh loop *)

Section Refresh.

Local Open Scope float_scope.

(** Lines 76-79. *)
Definition read_row (row : HoldingRow) : Inputs :=
  {| ticker := match Ticker row with
               | Some s => Py.upper (Py.strip s)
               | None => EmptyString
               end;
     shares := match Shares row with
               | Some x => if Py.notna (Some x) then x else 0
               | None => 0
               end;
     buy_price := match BuyPrice row with
                  | Some x => if Py.notna (Some x) then x else 0
                  | None => 0
                  end;
     your_target := if Py.notna (YourTargetPrice row)
                    then YourTargetPrice row else None |}.

(** [round(x, 2) if x else None]. *)
Definition round_if_truthy (o : option float) : option float :=
  match o with
  | Some x => if Py.truthy x then Some (Py.round x 2) else None
  | None => None
  end.

(** Lines 81-92: the price and the analyst target of one ticker, and what
    is reported when the fetch raises. *)
Definition fetch (yf : provider) (ticker : string)
  : option float * option float * list ui_event :=
  if Py.nonempty ticker then
    match yf ticker with
    | Fetched info =>
        (round_if_truthy (Py.or_ (currentPrice info) (regularMarketPrice info)),
         round_if_truthy (targetMeanPrice info),
         [])
    | Raised e =>
        (None, None,
         [UiError ("Error fetching " ++ ticker ++ ": " ++ e)%string])
    end
  else (None, None, []).

(** Lines 94-105. *)
Definition valuation (shares buy_price : float) (price analyst : option float)
  : Derived :=
  let value :=
    match price with
    | Some p => if Py.truthy p && Py.truthy shares
                then Some (Py.round (p * shares) 2) else None
    | None => None
    end in
  let cost :=
    if Py.truthy buy_price && Py.truthy shares
    then Some (Py.round (buy_price * shares) 2) else None in
  let profit_dollar :=
    match value, cost with
    | Some v, Some c => Some (Py.round (v - c) 2)
    | _, _ => None
    end in
  let profit_pct :=
    match profit_dollar, cost with
    | Some pd, Some c =>
        if Py.truthy c && negb (c =? 0)
        then Some (Py.round (pd / c * 100) 2) else None
    | _, _ => None
    end in
  let upside :=
    match analyst, price with
    | Some a, Some p =>
        if Py.truthy a && Py.truthy p && (0 <? p)
        then Some (Py.round ((a - p) / p * 100) 2) else None
    | _, _ => None
    end in
  {| price := price; value := value; cost := cost;
     profit_dollar := profit_dollar; profit_pct := profit_pct;
     analyst := analyst; upside := upside |}.

(** The body of the loop for one row. *)
Definition process_row (yf : provider) (row : HoldingRow)
  : Derived * list ui_event :=
  let i := read_row row in
  let '(price, analyst, shown) := fetch yf (ticker i) in
  (valuation (shares i) (buy_price i) price analyst, shown).

Definition no_columns : Columns :=
  {| current_prices := []; current_values := []; total_costs := [];
     profits_dollar := []; profits_pct := []; analyst_targets := [];
     analyst_upside := [] |}.

Definition append_derived (c : Columns) (d : Derived) : Columns :=
  {| current_prices := current_prices c ++ [price d];
     current_values := current_values c ++ [value d];
     total_costs := total_costs c ++ [cost d];
     profits_dollar := profits_dollar c ++ [profit_dollar d];
     profits_pct := profits_pct c ++ [profit_pct d];
     analyst_targets := analyst_targets c ++ [analyst d];
     analyst_upside := analyst_upside c ++ [upside d] |}.

(** One iteration: the state is the seven lists and what the page has
    shown so far. *)
Definition loop_step (yf : provider) (st : Columns * list ui_event)
    (row : HoldingRow) : Columns * list ui_event :=
  let '(d, shown) := process_row yf row in
  (append_derived (fst st) d, snd st ++ shown).

(** Lines 67-105. *)
Definition refresh_loop (yf : provider) (rows : list HoldingRow)
  : Columns * list ui_event :=
  fold_left (loop_step yf) rows (no_columns, []).

(** ** Portfolio totals, lines 115-117 and 122 *)

(** [sum(v for v in current_values if v)]. *)
Definition total_value (current_values : list (option float)) : float :=
  Py.sum (omap (fun v => if Py.truthy_opt v then v else None) current_values).

(** [sum(c for c in total_costs if c)]. *)
Definition total_cost (total_costs : list (option float)) : float :=
  Py.sum (omap (fun c => if Py.truthy_opt c then c else None) total_costs).

(** [sum(p for p in profits_dollar if p is not None)]. *)
Definition total_profit (profits_dollar : list (option float)) : float :=
  Py.sum (omap (fun p => p) profits_dollar).

(** The number formatted into the delta of the third metric. *)
Definition delta_pct (total_profit total_cost : float) : float :=
  if Py.truthy total_cost && negb (total_cost =? 0)
  then total_profit / total_cost * 100 else 0.

End Refresh.

(** ** Tables and the spreadsheet *)

(** A cell of a table or of the sheet: text, a number, or nothing. *)
Inductive cell :=
| CStr (s : string)
| CNum (x : float)
| CNone.

(** What the two libraries between the sheet and the table read a text as.
    [numericise] is the spreadsheet client on a text cell of a record (it
    tries [int(value)], then [float(value)]); [pd_number] is [pd.to_numeric]
    on a text.  Each gives the number that is read, or nothing. *)
Record Readers := {
  numericise : string -> option float;
  pd_number : string -> option float
}.

(** A [pd.DataFrame]: the column labels and the rows ([df.values]). *)
Record DataFrame := {
  columns : list string;
  values : list (list cell)
}.

(** The state the script runs in.  [sheet] is the remote worksheet, a list of
    rows.  [outcomes] decides the remote calls to come, one entry per call:
    [None] lets the call succeed, [Some e] makes it raise [e] and change
    nothing (calls beyond the list succeed).  [shown] is what the page has
    displayed.  [heap] holds the tables of the session, named by their
    position, and [session_holdings] is [st.session_state.holdings]. *)
Record World := {
  sheet : list (list cell);
  outcomes : list (option string);
  shown : list ui_event;
  heap : list DataFrame;
  session_holdings : option nat
}.

Definition with_sheet (sh : list (list cell)) (w : World) : World :=
  {| sheet := sh; outcomes := outcomes w; shown := shown w;
     heap := heap w; session_holdings := session_holdings w |}.

Definition with_outcomes (os : list (option string)) (w : World) : World :=
  {| sheet := sheet w; outcomes := os; shown := shown w;
     heap := heap w; session_holdings := session_holdings w |}.

Definition with_shown (evs : list ui_event) (w : World) : World :=
  {| sheet := sheet w; outcomes := outcomes w; shown := evs;
     heap := heap w; session_holdings := session_holdings w |}.

Definition with_heap (h : list DataFrame) (w : World) : World :=
  {| sheet := sheet w; outcomes := outcomes w; shown := shown w;
     heap := h; session_holdings := session_holdings w |}.

Definition with_session_holdings (r : option nat) (w : World) : World :=
  {| sheet := sheet w; outcomes := outcomes w; shown := shown w;
     heap := heap w; session_holdings := r |}.

(** Computations that read and change the world and may raise an exception,
    kept as its text. *)
Definition M (A : Type) : Type := World -> (string + A) * World.

#[export] Instance M_ret : MRet M := fun A a w => (inr a, w).

#[export] Instance M_bind : MBind M := fun A B k m w =>
  match m w with
  | (inr a, w') => k a w'
  | (inl e, w') => (inl e, w')
  end.

Definition raise {A} (e : string) : M A := fun w => (inl e, w).

(** [try: body except Exception as e: handler(e)]. *)
Definition try_except {A} (body : M A) (handler : string -> M A) : M A :=
  fun w =>
    match body w with
    | (inl e, w') => handler e w'
    | r => r
    end.

Definition show (ev : ui_event) : M unit :=
  fun w => (inr tt, with_shown (shown w ++ [ev]) w).

(** A call to the spreadsheet service that changes the sheet by [effect]. *)
Definition remote_write (effect : list (list cell) -> list (list cell)) : M unit :=
  fun w =>
    match outcomes w with
    | Some e :: rest => (inl e, with_outcomes rest w)
    | None :: rest => (inr tt, with_outcomes rest (with_sheet (effect (sheet w)) w))
    | [] => (inr tt, with_sheet (effect (sheet w)) w)
    end.

(** A call to the spreadsheet service that reads the sheet. *)
Definition remote_read : M (list (list cell)) :=
  fun w =>
    match outcomes w with
    | Some e :: rest => (inl e, with_outcomes rest w)
    | None :: rest => (inr (sheet w), with_outcomes rest w)
    | [] => (inr (sheet w), w)
    end.

(** A call that the client gives up while it builds the request: it raises,
    as the oracle says or else with the client's own error [e0], and the
    sheet stays as it is. *)
Definition remote_refused {A} (e0 : string) : M A :=
  fun w =>
    match outcomes w with
    | Some e :: rest => (inl e, with_outcomes rest w)
    | None :: rest => (inl e0, with_outcomes rest w)
    | [] => (inl e0, w)
    end.

(** What the body of a request can carry: the client sends JSON, which has
    no NaN and no infinity; [None] goes as [null]. *)
Definition json_cell (c : cell) : bool :=
  match c with
  | CNum x => is_finite x
  | _ => true
  end.

Definition json_rows (rs : list (list cell)) : bool :=
  forallb (forallb json_cell) rs.

Definition sheet_clear : M unit := remote_write (fun _ => []).
Definition sheet_append_row (r : list cell) : M unit :=
  remote_write (fun sh => sh ++ [r]).

(** [sheet.append_rows(rs)]: the rows are appended, unless a cell is NaN or
    infinite: such rows the client refuses to send, and the call raises with
    the client's error where the oracle lets it through. *)
Definition sheet_append_rows (rs : list (list cell)) : M unit :=
  if json_rows rs then remote_write (fun sh => sh ++ rs)
  else remote_refused "Out of range float values are not JSON compliant".

(** Lines 18-19: [client.open_by_key(...)] and [.sheet1] each ask the service
    for the description of the spreadsheet. *)
Definition open_by_key : M unit := _ ← remote_read ; mret tt.
Definition sheet1 : M unit := _ ← remote_read ; mret tt.

(** Lines 14-19, run at the start of every run of the script and outside
    any [try].  Reading the credentials from the secrets makes no call. *)
Definition open_worksheet : M unit := open_by_key ;; sheet1.

Section Store.

Variable lib : Readers.

Local Open Scope string_scope.

Definition holdings_columns : list string :=
  ["Ticker"; "Shares"; "Buy Price ($)"; "Your Target Price ($)"].

(** [pd.DataFrame(columns=[...])]. *)
Definition empty_holdings : DataFrame :=
  {| columns := holdings_columns; values := [] |}.

(** Lines 36-43. *)
Definition save_holdings (df : DataFrame) : M unit :=
  try_except
    (sheet_clear ;;
     sheet_append_row (CStr <$> columns df) ;;
     sheet_append_rows (values df) ;;
     show (UiSuccess "Holdings saved to Google Sheets!"))
    (fun e => show (UiError ("Save failed: " ++ e))).

Fixpoint col_index (name : string) (cols : list string) : option nat :=
  match cols with
  | [] => None
  | c :: cols' => if String.eqb c name then Some 0%nat
                  else S <$> col_index name cols'
  end.

Fixpoint nodupb (l : list string) : bool :=
  match l with
  | [] => true
  | x :: l' => negb (existsb (String.eqb x) l') && nodupb l'
  end.

(** The label a header cell stands for; header cells are text. *)
Definition header_label (c : cell) : string :=
  match c with
  | CStr s => s
  | _ => ""
  end.

(** A data row brought to the width of the header, blanks filling gaps. *)
Definition fill_gaps (n : nat) (row : list cell) : list cell :=
  take n (row ++ replicate n (CStr "")).

(** The width of the widest row. *)
Definition width (sh : list (list cell)) : nat :=
  foldr (fun row n => Nat.max (length row) n) 0%nat sh.

(** The client on a text cell of a record: the number it reads, or the
    text. *)
Definition numericised (s : string) : cell :=
  match numericise lib s with
  | Some x => CNum x
  | None => CStr s
  end.

(** A cell of the sheet as a record holds it: a number is handed over as
    the number, a text and an empty cell as the client reads them. *)
Definition read_cell (c : cell) : cell :=
  match c with
  | CNum x => CNum x
  | CStr s => numericised s
  | CNone => numericised ""
  end.

(** [pd.DataFrame(sheet.get_all_records())]: every row is brought to the
    width of the widest; the first row labels the columns, which must be
    distinct; the other rows are the records.  The result is [None] when
    there are no records. *)
Definition get_all_records : M (option DataFrame) :=
  sh ← remote_read ;
  match sh with
  | [] => mret None
  | header :: rows =>
      let n := width sh in
      let labels := header_label <$> fill_gaps n header in
      if negb (nodupb labels)
      then raise "the header row in the worksheet is not unique"
      else match rows with
           | [] => mret None
           | _ => mret (Some {| columns := labels;
                                values := (fun row => read_cell <$> fill_gaps n row)
                                          <$> rows |})
           end
  end.

(** [pd.to_numeric(c, errors="coerce")] followed by [fillna(0.0)] on one
    cell: a text is the number pandas parses it as, a text that does not
    parse, an empty cell and NaN become 0.0. *)
Definition to_numeric (c : cell) : cell :=
  match c with
  | CNum x => if is_nan x then CNum 0 else CNum x
  | CStr s => match pd_number lib s with
              | Some x => if is_nan x then CNum 0 else CNum x
              | None => CNum 0
              end
  | CNone => CNum 0
  end.

(** [df[name] = f(df[name])], cell by cell; [KeyError] without the column. *)
Definition map_column (name : string) (f : cell -> cell) (df : DataFrame)
  : M DataFrame :=
  match col_index name (columns df) with
  | Some j => mret {| columns := columns df;
                      values := alter f j <$> values df |}
  | None => raise ("KeyError: " ++ name)
  end.

(** Lines 21-34. *)
Definition load_holdings : M DataFrame :=
  try_except
    (records ← get_all_records ;
     match records with
     | Some df =>
         df ← map_column "Shares" to_numeric df ;
         df ← map_column "Buy Price ($)" to_numeric df ;
         df ← map_column "Your Target Price ($)" to_numeric df ;
         mret df
     | None => mret empty_holdings
     end)
    (fun e =>
       show (UiWarning ("Google Sheets load failed: " ++ e
                        ++ ". Starting with empty table.")) ;;
       mret empty_holdings).

End Store.

(** ** The script, run once per interaction *)

Inductive click := NoClick | ClickSave | ClickRefresh.

Definition alloc (df : DataFrame) : M nat :=
  fun w => (inr (length (heap w)), with_heap (heap w ++ [df]) w).

Definition deref (r : nat) : M DataFrame :=
  fun w =>
    match heap w !! r with
    | Some df => (inr df, w)
    | None => (inl "no such table"%string, w)
    end.

Definition assign (r : nat) (df : DataFrame) : M unit :=
  fun w => (inr tt, with_heap (<[r := df]> (heap w)) w).

Definition get_session_holdings : M (option nat) :=
  fun w => (inr (session_holdings w), w).

Definition set_session_holdings (r : nat) : M unit :=
  fun w => (inr tt, with_session_holdings (Some r) w).

Section Script.

Variable lib : Readers.

Local Open Scope string_scope.

(** [row[name]]. *)
Definition item (df : DataFrame) (row : list cell) (name : string) : M cell :=
  match col_index name (columns df) with
  | Some j =>
      match row !! j with
      | Some c => mret c
      | None => raise ("IndexError: " ++ name)
      end
  | None => raise ("KeyError: " ++ name)
  end.

(** The ticker cell as the loop reads it: text, or missing.  [str] of a
    number is not modelled: where the code goes on with the digits of the
    number as the ticker, the model raises. *)
Definition text_cell (c : cell) : M (option string) :=
  match c with
  | CStr s => mret (Some s)
  | CNone => mret None
  | CNum x => if is_nan x then mret None
              else raise "a ticker that is a number is not modelled"
  end.

(** A number cell as the loop reads it.  [float] of a text is not modelled:
    the model raises for every text, also for one that [float] parses. *)
Definition number_cell (c : cell) : M (option float) :=
  match c with
  | CNum x => mret (Some x)
  | CNone => mret None
  | CStr s => raise ("ValueError: could not convert string to float: " ++ s)
  end.

Definition typed_row (df : DataFrame) (row : list cell) : M HoldingRow :=
  t ← item df row "Ticker" ;
  t ← text_cell t ;
  s ← item df row "Shares" ;
  s ← number_cell s ;
  b ← item df row "Buy Price ($)" ;
  b ← number_cell b ;
  y ← item df row "Your Target Price ($)" ;
  y ← number_cell y ;
  mret {| Ticker := t; Shares := s; BuyPrice := b; YourTargetPrice := y |}.

Fixpoint show_all (evs : list ui_event) : M unit :=
  match evs with
  | [] => mret tt
  | ev :: evs' => show ev ;; show_all evs'
  end.

(** Lines 75-105 over the rows of the table, row by row. *)
Fixpoint loop_rows (yf : provider) (df : DataFrame) (rows : list (list cell))
    (acc : Columns) : M Columns :=
  match rows with
  | [] => mret acc
  | r :: rows' =>
      row ← typed_row df r ;
      let '(d, evs) := process_row yf row in
      show_all evs ;;
      loop_rows yf df rows' (append_derived acc d)
  end.

Definition derived_cell (o : option float) : cell :=
  match o with
  | Some x => CNum x
  | None => CNone
  end.

(** [df[name] = vals] on the table itself: an existing column is
    overwritten, a new one is added at the end; the lengths must agree. *)
Definition set_column (name : string) (vals : list cell) (df : DataFrame)
  : M DataFrame :=
  if negb (length vals =? length (values df))%nat
  then raise "ValueError: Length of values does not match length of index"
  else
    match col_index name (columns df) with
    | Some j =>
        mret {| columns := columns df;
                values := zip_with (fun row v => <[j := v]> row) (values df) vals |}
    | None =>
        mret {| columns := (columns df ++ [name])%list;
                values := zip_with (fun row v => (row ++ [v])%list) (values df) vals |}
    end.

(** A list of numbers and [None]s as a column: when a number is among them
    the column is a column of floats, in which [None] is NaN; a list of
    [None]s only stays as it is. *)
Definition column_cell (floats : bool) (o : option float) : cell :=
  match o with
  | Some x => CNum x
  | None => if floats then CNum nan else CNone
  end.

Definition column_cells (vals : list (option float)) : list cell :=
  column_cell (existsb has vals) <$> vals.

(** [edited[name] = vals], where [edited] names a table of the session. *)
Definition set_column_in_place (edited : nat) (name : string)
    (vals : list (option float)) : M unit :=
  df ← deref edited ;
  df ← set_column name (column_cells vals) df ;
  assign edited df.

(** Lines 66-113. *)
Definition refresh (yf : provider) (edited : nat) : M unit :=
  df ← deref edited ;
  c ← loop_rows yf df (values df) no_columns ;
  set_column_in_place edited "Current Price" (current_prices c) ;;
  set_column_in_place edited "Current Value ($)" (current_values c) ;;
  set_column_in_place edited "Total Cost ($)" (total_costs c) ;;
  set_column_in_place edited "Profit/Loss ($)" (profits_dollar c) ;;
  set_column_in_place edited "Profit/Loss (%)" (profits_pct c) ;;
  set_column_in_place edited "Analyst Target" (analyst_targets c) ;;
  set_column_in_place edited "Analyst Upside (%)" (analyst_upside c).

(** One run of the script, lines 14-113.  [edit] is what the user does in
    the table editor, which hands back a new table with every column of the
    one it was given; [c] is the button that triggered the run. *)
Definition script (yf : provider) (edit : DataFrame -> DataFrame) (c : click)
  : M unit :=
  open_worksheet ;;
  h ← get_session_holdings ;
  held ← match h with
         | Some r => mret r
         | None =>
             df ← load_holdings lib ;
             r ← alloc df ;
             set_session_holdings r ;;
             mret r
         end ;
  df ← deref held ;
  edited ← alloc (edit df) ;
  set_session_holdings edited ;;
  match c with
  | ClickSave => df ← deref edited ; save_holdings df
  | ClickRefresh => refresh yf edited
  | NoClick => mret tt
  end.

(** The same sheet seen from a new session. *)
Definition new_session (w : World) : World :=
  {| sheet := sheet w; outcomes := outcomes w; shown := [];
     heap := []; session_holdings := None |}.

End Script.

(** ** Concrete inputs used in the scenarios *)

Definition info_of (p a : option float) : Info :=
  {| currentPrice := p; regularMarketPrice := None; targetMeanPrice := a |}.

Definition holding (t : string) (s b : float) : HoldingRow :=
  {| Ticker := Some t; Shares := Some s; BuyPrice := Some b;
     YourTargetPrice := None |}.

(** AAPL trades at 200 with no analyst target. *)
Definition yf_aapl : provider := fun _ => Fetched (info_of (Some 200%float) None).

(** A price of 10 and an analyst target of 0.004, which rounds to 0.0. *)
Definition yf_tiny_target : provider :=
  fun _ => Fetched (info_of (Some 10%float) (Some 0.004%float)).

(** ** What the specification says, where it differs from the code *)

(** The analyst upside as the specification words it: guarded only by the
    presence of both values and a positive price. *)
Definition upside_as_specified (d : Derived) : option float :=
  match analyst d, price d with
  | Some a, Some p =>
      if (0 <? p)%float then Some (Py.round ((a - p) / p * 100)%float 2) else None
  | _, _ => None
  end.

(** A cell that is missing or holds zero. *)
Definition absent_or_zero (c : option float) : bool :=
  match c with
  | Some x => is_nan x || (x =? 0)%float
  | None => true
  end.

(** The values a column holds, leaving out the absent ones. *)
Definition present (l : list (option float)) : list float := omap id l.

(** Row [j] of the seven lists. *)
Definition derived_at (c : Columns) (j : nat) : option Derived :=
  p ← current_prices c !! j ;
  v ← current_values c !! j ;
  k ← total_costs c !! j ;
  pd ← profits_dollar c !! j ;
  pp ← profits_pct c !! j ;
  a ← analyst_targets c !! j ;
  u ← analyst_upside c !! j ;
  Some {| price := p; value := v; cost := k; profit_dollar := pd;
          profit_pct := pp; analyst := a; upside := u |}.

(** The percentage of the third metric as the specification words it: the
    guard of the per-row percentage with its absent outcome. *)
Definition delta_as_specified (total_profit total_cost : float) : option float :=
  if Py.truthy total_cost && negb (total_cost =? 0)%float
  then Some (total_profit / total_cost * 100)%float else None.

(** The provider is down for BADTICKER only. *)
Definition yf_bad : provider :=
  fun t => if String.eqb t "BADTICKER" then Raised "HTTP Error 404"
           else Fetched (info_of (Some 200%float) (Some 210%float)).

Definition three_rows : list HoldingRow :=
  [holding "AAPL" 10 150; holding "badticker" 3 20; holding "MSFT" 1 100].

(** Every remote call to come succeeds. *)
Definition calls_succeed (w : World) : bool :=
  forallb (fun o => match o with None => true | Some _ => false end) (outcomes w).

Definition number_columns : list string :=
  ["Shares"; "Buy Price ($)"; "Your Target Price ($)"]%string.

Definition is_number_column (name : string) : bool :=
  existsb (String.eqb name) number_columns.

(** A table as the script holds it: distinct labels, rows as wide as the
    labels, and the three number columns among them. *)
Definition frame_ok (df : DataFrame) : bool :=
  nodupb (columns df)
  && forallb (fun row => (length row =? length (columns df))%nat) (values df)
  && forallb (fun name => existsb (String.eqb name) (columns df)) number_columns.



(** The number cells of a row all hold numbers. *)
Definition numbers_present (cols : list string) (row : list cell) : bool :=
  forallb (fun nc => if is_number_column (fst nc)
                     then match snd nc with
                          | CNum x => negb (is_nan x)
                          | _ => false
                          end
                     else true)
          (zip cols row).

(** An empty sheet and a new session. *)
Definition world0 : World :=
  {| sheet := []; outcomes := []; shown := []; heap := [];
     session_holdings := None |}.

(** The user types one row into the editor. *)
Definition type_aapl (df : DataFrame) : DataFrame :=
  {| columns := columns df;
     values := values df ++ [[CStr "AAPL"; CNum 10; CNum 150; CNum 180]] |}.

(** AAPL trades at 200 and analysts aim at 210. *)
Definition yf_full : provider :=
  fun _ => Fetched (info_of (Some 200%float) (Some 210%float)).

(** The number that a text of decimal digits stands for; nothing for a text
    with another character. *)
Fixpoint digits_value (s : string) (acc : Z) : option Z :=
  match s with
  | EmptyString => Some acc
  | String a s' =>
      let n := Z.of_nat (nat_of_ascii a) in
      if ((48 <=? n) && (n <=? 57))%Z
      then digits_value s' (10 * acc + (n - 48))%Z
      else None
  end.

Definition decimal (s : string) : option float :=
  match s with
  | EmptyString => None
  | _ => z ← digits_value s 0%Z ;
         Some (SF2Prim (binary_normalize prec emax z 0 false))
  end.

(** The readers of the scenarios below: a text of decimal digits is read as
    its number (0700 as 700), and no other text is read as a number.  The
    scenarios hold no other numeral. *)
Definition decimal_readers : Readers :=
  {| numericise := decimal; pd_number := decimal |}.


(** The four cells of a holding, and the table of a list of holdings. *)
Definition holding_cells (h : cell * cell * cell * cell) : list cell :=
  let '(t, s, b, y) := h in [t; s; b; y].

Definition holdings_frame (hs : list (cell * cell * cell * cell)) : DataFrame :=
  {| columns := holdings_columns; values := holding_cells <$> hs |}.



Definition aapl_frame : DataFrame :=
  {| columns := holdings_columns;
     values := [[CStr "AAPL"; CNum 10; CNum 150; CNum 180]] |}.

(** A hundredth of a share bought at one cent: the cost rounds to 0.00. *)
Definition penny_row : HoldingRow := holding "PENNY" 0.01%float 0.01%float.

(** The derived rows as columns. *)
Definition columns_of (ds : list Derived) : Columns :=
  {| current_prices := price <$> ds; current_values := value <$> ds;
     total_costs := cost <$> ds; profits_dollar := profit_dollar <$> ds;
     profits_pct := profit_pct <$> ds; analyst_targets := analyst <$> ds;
     analyst_upside := upside <$> ds |}.

(** A sheet whose header lacks the Buy Price and Target columns. *)
Definition two_column_sheet : World :=
  {| sheet := [[CStr "Ticker"; CStr "Shares"]; [CStr "AAPL"; CNum 10]];
     outcomes := []; shown := []; heap := []; session_holdings := None |}.

(** A sheet that already holds another holding. *)
Definition msft_sheet : World :=
  {| sheet := [CStr <$> holdings_columns;
               [CStr "MSFT"; CNum 1; CNum 100; CNum 120]];
     outcomes := []; shown := []; heap := []; session_holdings := None |}.

(** ** Helpers for the further properties *)

(** Every character is whitespace. *)
Fixpoint all_space (s : string) : bool :=
  match s with
  | String a s' => Py.is_space a && all_space s'
  | EmptyString => true
  end.

(** A ticker cell that is missing or holds whitespace only. *)
Definition blank (t : option string) : bool :=
  match t with
  | Some s => all_space s
  | None => true
  end.

(** The report of the loop for one row, if any. *)
Definition fetch_error (yf : provider) (row : HoldingRow) : option ui_event :=
  let t := ticker (read_row row) in
  if Py.nonempty t then
    match yf t with
    | Raised e => Some (UiError ("Error fetching " ++ t ++ ": " ++ e)%string)
    | Fetched _ => None
    end
  else None.

(** The provider is down for every ticker. *)
Definition yf_down : provider := fun _ => Raised "connection refused".

(** A row whose ticker cell holds spaces only. *)
Definition spaces_row : HoldingRow :=
  {| Ticker := Some "   "%string; Shares := Some 10%float;
     BuyPrice := Some 150%float; YourTargetPrice := None |}.

(** ** The table a refresh leaves *)

(** The table with column [name] set to [vals]: what [set_column] returns
    when the lengths agree. *)
Definition put_column (name : string) (vals : list cell) (df : DataFrame)
  : DataFrame :=
  match col_index name (columns df) with
  | Some j =>
      {| columns := columns df;
         values := zip_with (fun row v => <[j := v]> row) (values df) vals |}
  | None =>
      {| columns := columns df ++ [name];
         values := zip_with (fun row v => row ++ [v]) (values df) vals |}
  end.

(** The seven assignments of lines 107-113, in their order. *)
Definition put_columns (c : Columns) (df : DataFrame) : DataFrame :=
  put_column "Analyst Upside (%)" (column_cells (analyst_upside c))
    (put_column "Analyst Target" (column_cells (analyst_targets c))
      (put_column "Profit/Loss (%)" (column_cells (profits_pct c))
        (put_column "Profit/Loss ($)" (column_cells (profits_dollar c))
          (put_column "Total Cost ($)" (column_cells (total_costs c))
            (put_column "Current Value ($)" (column_cells (current_values c))
              (put_column "Current Price" (column_cells (current_prices c))
                 df)))))).

Definition derived_columns : list string :=
  ["Current Price"; "Current Value ($)"; "Total Cost ($)"; "Profit/Loss ($)";
   "Profit/Loss (%)"; "Analyst Target"; "Analyst Upside (%)"]%string.

(** Each of the seven lists has [n] entries. *)
Definition widths (c : Columns) (n : nat) : Prop :=
  length (current_prices c) = n /\ length (current_values c) = n
  /\ length (total_costs c) = n /\ length (profits_dollar c) = n
  /\ length (profits_pct c) = n /\ length (analyst_targets c) = n
  /\ length (analyst_upside c) = n.

(** The four cells of a holding in a table. *)
Definition text_of (t : option string) : cell :=
  match t with
  | Some s => CStr s
  | None => CNone
  end.

Definition cells_of_row (row : HoldingRow) : list cell :=
  [text_of (Ticker row); derived_cell (Shares row);
   derived_cell (BuyPrice row); derived_cell (YourTargetPrice row)].

(** The seven cells that a row gets in the columns [c]: its own values, a
    missing one being NaN in a column in which some row has a number. *)
Definition derived_cells (c : Columns) (d : Derived) : list cell :=
  [column_cell (existsb has (current_prices c)) (price d);
   column_cell (existsb has (current_values c)) (value d);
   column_cell (existsb has (total_costs c)) (cost d);
   column_cell (existsb has (profits_dollar c)) (profit_dollar d);
   column_cell (existsb has (profits_pct c)) (profit_pct d);
   column_cell (existsb has (analyst_targets c)) (analyst d);
   column_cell (existsb has (analyst_upside c)) (upside d)].

(** The table of the holdings [rows], and the same table after a refresh
    with provider [yf]. *)
Definition typed_frame (rows : list HoldingRow) : DataFrame :=
  {| columns := holdings_columns; values := cells_of_row <$> rows |}.

Definition refreshed (yf : provider) (rows : list HoldingRow) : DataFrame :=
  let c := fst (refresh_loop yf rows) in
  {| columns := holdings_columns ++ derived_columns;
     values := (fun row => cells_of_row row
                           ++ derived_cells c (fst (process_row yf row)))
               <$> rows |}.

(** The script once the worksheet is open and the table held by the session
    is known. *)
Definition run_with (yf : provider) (edit : DataFrame -> DataFrame) (c : click)
    (held : nat) : M unit :=
  df ← deref held ;
  edited ← alloc (edit df) ;
  set_session_holdings edited ;;
  match c with
  | ClickSave => df ← deref edited ; save_holdings df
  | ClickRefresh => refresh yf edited
  | NoClick => mret tt
  end.

(** The seven lists, in the order of the assignments. *)
Definition columns_list (c : Columns) : list (list (option float)) :=
  [current_prices c; current_values c; total_costs c; profits_dollar c;
   profits_pct c; analyst_targets c; analyst_upside c].

(** A list with a number in one place and none in another. *)
Definition mixed (vals : list (option float)) : bool :=
  existsb has vals && existsb (fun o => negb (has o)) vals.

(** A session that holds the table of the three holdings, over a sheet that
    holds MSFT. *)
Definition three_rows_session : World :=
  {| sheet := [CStr <$> holdings_columns;
               [CStr "MSFT"; CNum 1; CNum 100; CNum 120]];
     outcomes := []; shown := [];
     heap := [typed_frame three_rows];
     session_holdings := Some 0%nat |}.

(** A session that holds the AAPL table, and one that holds a table with
    text in the Shares column. *)
Definition aapl_session : World :=
  {| sheet := []; outcomes := []; shown := [];
     heap := [typed_frame [holding "AAPL" 10%float 150%float]];
     session_holdings := Some 0%nat |}.

Definition text_shares_session : World :=
  {| sheet := []; outcomes := []; shown := [];
     heap := [{| columns := holdings_columns;
                 values := [[CStr "AAPL"; CStr "ten"; CNum 150; CNone]] |}];
     session_holdings := Some 0%nat |}.

(** ** The charts, lines 129-143 *)

Section Charts.

Local Open Scope string_scope.

(** [pd.isna] on a cell. *)
Definition is_missing (c : cell) : bool :=
  match c with
  | CNone => true
  | CNum x => is_nan x
  | CStr _ => false
  end.

(** [df.empty]: no rows or no columns. *)
Definition frame_empty (df : DataFrame) : bool :=
  (length (values df) =? 0)%nat || (length (columns df) =? 0)%nat.

Definition cell_at (row : list cell) (j : nat) : cell :=
  default CNone (row !! j).

(** The positions of the labels [names]; [KeyError] for the first label
    that is not a column. *)
Fixpoint col_indices (names cols : list string) : string + list nat :=
  match names with
  | [] => inr []
  | n :: names' =>
      match col_index n cols with
      | None => inl ("KeyError: " ++ n)
      | Some j =>
          match col_indices names' cols with
          | inl e => inl e
          | inr js => inr (j :: js)
          end
      end
  end.

(** [df.dropna(subset=..., how=...)]: with [how="all"] a row is dropped when
    all its cells in the subset are missing, otherwise when any is. *)
Definition dropna (subset : list string) (how_all : bool) (df : DataFrame)
  : string + DataFrame :=
  match col_indices subset (columns df) with
  | inl e => inl e
  | inr js =>
      let dropped row :=
        if how_all
        then forallb (fun j => is_missing (cell_at row j)) js
        else existsb (fun j => is_missing (cell_at row j)) js in
      inr {| columns := columns df;
             values := List.filter (fun row => negb (dropped row)) (values df) |}
  end.

(** What the bar chart is given: the index, the column labels and the rows
    of numbers. *)
Record BarData := {
  bar_index : list cell;
  bar_columns : list string;
  bar_rows : list (list cell)
}.

(** What [ax.pie] is called with.  The drawing is not modelled: [ax.pie]
    itself raises for a negative value. *)
Record PieData := {
  pie_values : list cell;
  pie_labels : list cell
}.

(** Lines 130-135; [None] when the chart is not drawn. *)
Definition price_comparison (edited : DataFrame) : string + option BarData :=
  if frame_empty edited then inr None
  else
    match dropna ["Current Price"; "Your Target Price ($)"; "Analyst Target"]
                 true edited with
    | inl e => inl e
    | inr chart_df =>
        if frame_empty chart_df then inr None
        else
          match col_index "Ticker" (columns chart_df),
                col_indices ["Current Price"; "Your Target Price ($)";
                             "Analyst Target"] (columns chart_df) with
          | Some jt, inr js =>
              inr (Some {| bar_index := (fun row => cell_at row jt)
                                        <$> values chart_df;
                           bar_columns := ["Current Price"; "Your Target";
                                           "Analyst Target"];
                           bar_rows := (fun row => cell_at row <$> js)
                                       <$> values chart_df |})
          | None, _ => inl "KeyError: Ticker"
          | _, inl e => inl e
          end
    end.

(** Lines 137-143; [None] when the chart is not drawn. *)
Definition allocation (edited : DataFrame) : string + option PieData :=
  if frame_empty edited then inr None
  else
    match dropna ["Current Value ($)"] false edited with
    | inl e => inl e
    | inr value_df =>
        if frame_empty value_df then inr None
        else
          match col_index "Current Value ($)" (columns value_df),
                col_index "Ticker" (columns value_df) with
          | Some jv, Some jt =>
              inr (Some {| pie_values := (fun row => cell_at row jv)
                                         <$> values value_df;
                           pie_labels := (fun row => cell_at row jt)
                                         <$> values value_df |})
          | None, _ => inl "KeyError: Current Value ($)"
          | _, None => inl "KeyError: Ticker"
          end
    end.

End Charts.

(** The rows a chart keeps, for a table of holdings after a refresh. *)
Definition has_value (yf : provider) (row : HoldingRow) : bool :=
  Py.notna (value (fst (process_row yf row))).

Definition has_any_price (yf : provider) (row : HoldingRow) : bool :=
  Py.notna (price (fst (process_row yf row)))
  || Py.notna (YourTargetPrice row)
  || Py.notna (analyst (fst (process_row yf row))).

(** ** The metrics, lines 119-122 *)

(** The decimal digits of a natural number, at least one digit. *)
Definition digits (n : Z) : string :=
  NilZero.string_of_uint (N.to_uint (Z.to_N n)).

(** The [,] of a format: a comma before every group of three digits, counted
    from the right. *)
Fixpoint group3 (s : string) : string :=
  match s with
  | String a s' =>
      String a (if ((0 <? String.length s')
                    && (String.length s' mod 3 =? 0))%nat
                then String "," (group3 s') else group3 s')
  | EmptyString => EmptyString
  end.

Definition two_digits (n : Z) : string :=
  if (n <? 10)%Z then String "0" (digits n) else digits n.

(** [format(x, ".2f")] with the flags [+] and [,] of the format
    specification: the exact binary value of [x] is rounded to two decimals,
    ties to even; the sign of [x] is printed also when the digits are all
    zero; NaN and the infinities print as [nan] and [inf]. *)
Definition format_2f (plus comma : bool) (x : float) : string :=
  let sign (s : bool) : string :=
    if s then "-"%string else if plus then "+"%string else ""%string in
  match Prim2SF x with
  | S754_nan => String.append (sign false) "nan"
  | S754_infinity s => String.append (sign s) "inf"
  | S754_zero s => String.append (sign s) "0.00"
  | S754_finite s m e =>
      let n := if (0 <=? e)%Z then (Zpos m * 2 ^ e * 100)%Z
               else Py.round_half_even (Zpos m * 100) (2 ^ (- e)) in
      let whole := digits (n / 100) in
      String.append (sign s)
        (String.append (if comma then group3 whole else whole)
           (String "." (two_digits (n mod 100))))
  end.

(** One call of [metric]: the label, the value and the delta under it. *)
Record Metric := {
  metric_label : string;
  metric_value : string;
  metric_delta : option string
}.

(** Lines 115-122: the three metrics of the columns of a refresh. *)
Definition metrics (c : Columns) : list Metric :=
  let total_value := total_value (current_values c) in
  let total_cost := total_cost (total_costs c) in
  let total_profit := total_profit (profits_dollar c) in
  [ {| metric_label := "Total Portfolio Value";
       metric_value := String "$" (format_2f false true total_value);
       metric_delta := None |};
    {| metric_label := "Total Invested";
       metric_value := String "$" (format_2f false true total_cost);
       metric_delta := None |};
    {| metric_label := "Total Profit/Loss";
       metric_value := String "$" (format_2f true true total_profit);
       metric_delta :=
         Some (String.append
                 (format_2f true false (delta_pct total_profit total_cost))
                 "%") |} ].

(** ** Frames: what a computation leaves as it was *)

(** [m] relates every world it is started in to the world it ends in by [R],
    whether it returns or raises. *)
Definition keeps {A} (R : World -> World -> Prop) (m : M A) : Prop :=
  forall w, R w (snd (m w)).

(** The worksheet is as before. *)
Definition same_sheet (w w' : World) : Prop := sheet w' = sheet w.

(** No remote call was made. *)
Definition same_outcomes (w w' : World) : Prop := outcomes w' = outcomes w.

(** The tables of the session and the name it holds are as before. *)
Definition same_tables (w w' : World) : Prop :=
  heap w' = heap w /\ session_holdings w' = session_holdings w.

(** Nothing but the page has changed. *)
Definition same_but_shown (w w' : World) : Prop :=
  same_sheet w w' /\ same_outcomes w w' /\ same_tables w w'.

(** Neither the sheet has changed nor was a remote call made. *)
Definition same_remote (w w' : World) : Prop :=
  same_sheet w w' /\ same_outcomes w w'.

(** * Properties *)

(** The rounding agrees with CPython on its textbook cases: 2.675 is below
    the tie in binary, 0.125 and 0.375 are exact ties. *)
Example round_examples :
  (Py.round 2.675 2 = 2.67 /\ Py.round 0.125 2 = 0.12 /\ Py.round 0.375 2 = 0.38
   /\ Py.round 33.33333333333333 2 = 33.33 /\ Py.round 0.004 2 = 0
   /\ Py.round (-0.0001) 2 = PrimFloat.neg_zero
   /\ Py.round infinity 2 = infinity /\ Py.round 1e300 2 = 1e300
   /\ Py.round 2 2 = 2)%float.
Proof. vm_compute. repeat split. Qed.

Example strip_upper_example :
  Py.upper (Py.strip "  aapl "%string) = "AAPL"%string.
Proof. reflexivity. Qed.

(** A refresh changes the table that the session holds, and the next run
    saves that table. *)
Example refresh_updates_session_table :
  let w1 := snd (script decimal_readers yf_full type_aapl ClickRefresh world0) in
  (columns <$> (heap w1 !! 1%nat)) =
  Some (holdings_columns ++
        ["Current Price"; "Current Value ($)"; "Total Cost ($)";
         "Profit/Loss ($)"; "Profit/Loss (%)"; "Analyst Target";
         "Analyst Upside (%)"]%string)
  /\ session_holdings w1 = Some 1%nat.
Proof. vm_compute. split; reflexivity. Qed.

Section FloatFacts.

Local Open Scope float_scope.

Lemma Prim2SF_zero : Prim2SF 0 = S754_zero false.
Proof. vm_compute. reflexivity. Qed.

Lemma eqb_zero_SF (x : float) :
  (x =? 0) = true -> exists s, Prim2SF x = S754_zero s.
Proof.
  rewrite FloatAxioms.eqb_spec, Prim2SF_zero.
  destruct (Prim2SF x) as [s|s| |s m e]; cbn; try discriminate.
  - intros _. exists s. reflexivity.
  - destruct s; discriminate.
  - destruct s; discriminate.
Qed.

Lemma ltb_zero_nonzero (p : float) : (0 <? p) = true -> (p =? 0) = false.
Proof.
  rewrite FloatAxioms.ltb_spec, FloatAxioms.eqb_spec, Prim2SF_zero.
  destruct (Prim2SF p) as [s|s| |s m e]; cbn; try discriminate; try reflexivity.
  - destruct s; reflexivity.
  - destruct s; reflexivity.
Qed.

Lemma truthy_false (x : float) : Py.truthy x = false <-> (x =? 0) = true.
Proof. unfold Py.truthy. destruct (x =? 0); cbn; split; congruence. Qed.

End FloatFacts.

(** The sign of a zero sum, from the specification of binary64 addition. *)

Section AddSign.

Local Open Scope Z_scope.

Lemma iter_pos_nat {A} (f : A -> A) (k : positive) :
  forall x, SpecFloat.iter_pos f k x = Nat.iter (Pos.to_nat k) f x.
Proof.
  induction k as [k IH|k IH|]; intros x; cbn [SpecFloat.iter_pos].
  - rewrite !IH, Pos2Nat.inj_xI, <- Nat.iter_add.
    replace (S (2 * Pos.to_nat k))%nat with (Pos.to_nat k + Pos.to_nat k + 1)%nat by lia.
    rewrite (Nat.iter_add (Pos.to_nat k + Pos.to_nat k) 1). reflexivity.
  - rewrite !IH, Pos2Nat.inj_xO, <- Nat.iter_add. f_equal. lia.
  - reflexivity.
Qed.

Lemma shr_1_pos (mrs : shr_record) (m : positive) :
  shr_m mrs = Zpos m -> (1 < Pos.to_nat (digits2_pos m))%nat ->
  exists m', shr_m (shr_1 mrs) = Zpos m'
             /\ Pos.to_nat (digits2_pos m') = (Pos.to_nat (digits2_pos m) - 1)%nat.
Proof.
  destruct mrs as [z r s]. cbn [shr_m]. intros -> H.
  destruct m as [q|q|]; cbn in *.
  - exists q. split; [reflexivity|]. rewrite Pos2Nat.inj_succ. lia.
  - exists q. split; [reflexivity|]. rewrite Pos2Nat.inj_succ. lia.
  - lia.
Qed.

Lemma iter_shr_1_pos (n : nat) :
  forall (mrs : shr_record) (m : positive),
    shr_m mrs = Zpos m -> (n < Pos.to_nat (digits2_pos m))%nat ->
    exists m', shr_m (Nat.iter n shr_1 mrs) = Zpos m'
               /\ Pos.to_nat (digits2_pos m') = (Pos.to_nat (digits2_pos m) - n)%nat.
Proof.
  induction n as [|n IH]; intros mrs m Hm Hn.
  - exists m. split; [exact Hm|]. lia.
  - cbn [Nat.iter]. destruct (IH mrs m Hm) as (m1 & E1 & D1); [lia|].
    destruct (shr_1_pos _ m1 E1) as (m2 & E2 & D2); [lia|].
    exists m2. split; [exact E2|]. lia.
Qed.

Lemma shr_fexp_pos (m : positive) (e : Z) (l : location) :
  emin <= e ->
  exists m', shr_m (fst (shr_fexp prec emax (Zpos m) e l)) = Zpos m'
             /\ emin <= snd (shr_fexp prec emax (Zpos m) e l).
Proof.
  intros He. unfold shr_fexp, shr. cbn [Zdigits2].
  set (d := Zpos (digits2_pos m)).
  destruct (fexp prec emax (d + e) - e) as [|k|k] eqn:En.
  - cbn [fst snd]. exists m. split; [destruct l as [|[]]; reflexivity|exact He].
  - cbn [fst snd]. rewrite iter_pos_nat.
    assert (Hk : Zpos k = d - prec).
    { unfold fexp in En. unfold emin, prec, emax in *. lia. }
    destruct (iter_shr_1_pos (Pos.to_nat k) (shr_record_of_loc (Zpos m) l) m)
      as (m' & E & _).
    + destruct l as [|[]]; reflexivity.
    + unfold d, prec in Hk. lia.
    + exists m'. split; [exact E|]. lia.
  - cbn [fst snd]. exists m. split; [destruct l as [|[]]; reflexivity|exact He].
Qed.

Lemma binary_round_aux_nonzero (sx b : bool) (m : positive) (e : Z) (l : location) :
  emin <= e ->
  binary_round_aux prec emax sx (Zpos m) e l <> S754_zero b.
Proof.
  intros He. unfold binary_round_aux.
  destruct (shr_fexp_pos m e l He) as (m1 & E1 & He1).
  destruct (shr_fexp prec emax (Zpos m) e l) as [mrs1 e1]. cbn [fst snd] in *.
  assert (exists m2, round_nearest_even (shr_m mrs1) (loc_of_shr_record mrs1) = Zpos m2)
    as [m2 E2].
  { rewrite E1. unfold round_nearest_even.
    destruct (loc_of_shr_record mrs1) as [|[]]; try (eexists; reflexivity).
    destruct (Z.even (Zpos m1)); eexists; reflexivity. }
  rewrite E2.
  destruct (shr_fexp_pos m2 e1 loc_Exact He1) as (m3 & E3 & _).
  destruct (shr_fexp prec emax (Zpos m2) e1 loc_Exact) as [mrs2 e2]. cbn [fst snd] in *.
  rewrite E3. destruct (e2 <=? emax - prec); discriminate.
Qed.

Lemma binary_round_nonzero (sx b : bool) (m : positive) (e : Z) :
  emin <= e ->
  binary_round prec emax sx m e <> S754_zero b.
Proof.
  intros He. unfold binary_round, shl_align.
  set (e' := fexp prec emax (Zpos (digits2_pos m) + e)).
  assert (He' : emin <= e') by (unfold e', fexp; lia).
  destruct (e' - e); apply binary_round_aux_nonzero; assumption.
Qed.

Lemma valid_finite_emin (x : float) (s : bool) (m : positive) (e : Z) :
  Prim2SF x = S754_finite s m e -> emin <= e.
Proof.
  intros H. pose proof (Prim2SF_valid x) as V. rewrite H in V.
  cbn in V. apply andb_true_iff in V as [C _].
  unfold canonical_mantissa in C. apply Z.eqb_eq in C.
  unfold fexp in C. lia.
Qed.

(** A sum of two floats is [-0.0] only when both are. *)
Lemma add_neg_zero (a v : float) :
  Prim2SF (a + v)%float = S754_zero true ->
  Prim2SF a = S754_zero true /\ Prim2SF v = S754_zero true.
Proof.
  rewrite FloatAxioms.add_spec. unfold SF64add.
  pose proof (valid_finite_emin a) as Va. pose proof (valid_finite_emin v) as Vv.
  destruct (Prim2SF a) as [sa|sa| |sa ma ea], (Prim2SF v) as [sv|sv| |sv mv ev];
    cbn [SFadd]; try discriminate; try (destruct sa, sv; discriminate).
  - destruct sa, sv; try discriminate. intros _. split; reflexivity.
  - intros H. exfalso. revert H.
    specialize (Va _ _ _ eq_refl). specialize (Vv _ _ _ eq_refl).
    unfold binary_normalize.
    destruct (cond_Zopp sa _ + cond_Zopp sv _); try discriminate;
      apply binary_round_nonzero; lia.
Qed.

End AddSign.

Section Valuation.

Local Open Scope float_scope.

Lemma process_row_fst (yf : provider) (row : HoldingRow) :
  fst (process_row yf row) =
  let i := read_row row in
  valuation (shares i) (buy_price i)
            (fst (fst (fetch yf (ticker i)))) (snd (fst (fetch yf (ticker i)))).
Proof.
  unfold process_row. cbv zeta.
  destruct (fetch yf (ticker (read_row row))) as [[p a] evs]. reflexivity.
Qed.

(** C1: for every row and every answer of the provider, profitPct is
    absent when totalCost is absent or zero; otherwise it is
    round(profitAbs / totalCost * 100, 2), absent with profitAbs.  With
    shares = 10, buyPrice = 150 and currentPrice = 200 it is 33.33. *)
Theorem profit_pct_spec :
  (forall (yf : provider) (row : HoldingRow),
     let d := fst (process_row yf row) in
     match cost d with
     | None => profit_pct d = None
     | Some c =>
         if c =? 0 then profit_pct d = None
         else profit_pct d =
              (fun pd => Py.round (pd / c * 100) 2) <$> profit_dollar d
     end)
  /\ (let d := fst (process_row yf_aapl (holding "AAPL" 10 150)) in
      cost d = Some 1500 /\ value d = Some 2000 /\ profit_dollar d = Some 500
      /\ profit_pct d = Some 33.33).
Proof.
  split.
  - intros yf row d. subst d. rewrite process_row_fst. cbv zeta.
    generalize (fst (fst (fetch yf (ticker (read_row row))))) as p.
    generalize (snd (fst (fetch yf (ticker (read_row row))))) as a.
    generalize (shares (read_row row)) as s.
    generalize (buy_price (read_row row)) as b.
    intros b s a p. unfold valuation, Py.truthy.
    cbn [cost profit_pct profit_dollar].
    destruct (b =? 0), (s =? 0); cbn [negb andb];
      destruct p as [p|]; try destruct (p =? 0); cbn [negb andb];
      try reflexivity;
      destruct (Py.round (b * s) 2 =? 0); reflexivity.
  - vm_compute. repeat split.
Qed.

Lemma truthy_zero : Py.truthy 0 = false.
Proof. vm_compute. reflexivity. Qed.

Lemma read_shares_falsy (row : HoldingRow) :
  absent_or_zero (Shares row) = true ->
  Py.truthy (shares (read_row row)) = false.
Proof.
  unfold read_row, absent_or_zero, Py.notna. cbn [shares].
  destruct (Shares row) as [x|]; [|intros _; apply truthy_zero].
  destruct (is_nan x); cbn [negb orb]; [intros _; apply truthy_zero|].
  intros H. apply truthy_false, H.
Qed.

Lemma read_buy_price_falsy (row : HoldingRow) :
  absent_or_zero (BuyPrice row) = true ->
  Py.truthy (buy_price (read_row row)) = false.
Proof.
  unfold read_row, absent_or_zero, Py.notna. cbn [buy_price].
  destruct (BuyPrice row) as [x|]; [|intros _; apply truthy_zero].
  destruct (is_nan x); cbn [negb orb]; [intros _; apply truthy_zero|].
  intros H. apply truthy_false, H.
Qed.

(** C3: a row whose shares or buy price is zero or missing has no
    totalCost (it is absent, not zero), and hence neither profitAbs nor
    profitPct, whatever the provider answers. *)
Theorem zero_or_missing_basis_has_no_cost (yf : provider) (row : HoldingRow) :
  absent_or_zero (Shares row) || absent_or_zero (BuyPrice row) = true ->
  let d := fst (process_row yf row) in
  cost d = None /\ profit_dollar d = None /\ profit_pct d = None.
Proof.
  intros H d. subst d. rewrite process_row_fst. cbv zeta.
  assert (G : Py.truthy (buy_price (read_row row))
              && Py.truthy (shares (read_row row)) = false).
  { apply orb_true_iff in H as [H|H].
    - rewrite (read_shares_falsy _ H). apply andb_false_r.
    - rewrite (read_buy_price_falsy _ H). reflexivity. }
  unfold valuation. cbn [cost profit_dollar profit_pct]. rewrite G.
  clear G H.
  repeat split;
    destruct (fst (fst (fetch yf (ticker (read_row row))))) as [p|];
    try reflexivity;
    destruct (Py.truthy p && Py.truthy (shares (read_row row)));
    reflexivity.
Qed.

(** The scenario of C3: XYZ with 5 shares and no buy price, while the
    provider does return a price. *)
Lemma zero_or_missing_basis_witness :
  let d := fst (process_row yf_aapl (holding "XYZ" 5 0)) in
  price d = Some 200
  /\ cost d = None /\ profit_dollar d = None /\ profit_pct d = None.
Proof.
  split; [vm_compute; reflexivity|].
  apply (zero_or_missing_basis_has_no_cost yf_aapl (holding "XYZ" 5 0)).
  vm_compute. reflexivity.
Defined.

(** The current value of a row in terms of its current price and its
    Shares cell. *)
Lemma value_of_price (yf : provider) (row : HoldingRow) :
  let d := fst (process_row yf row) in
  price d = fst (fst (fetch yf (ticker (read_row row))))
  /\ value d =
     match price d, Shares row with
     | Some p, Some s =>
         if negb (p =? 0) && (Py.notna (Some s) && negb (s =? 0))
         then Some (Py.round (p * s) 2) else None
     | _, _ => None
     end.
Proof.
  intros d. subst d. rewrite process_row_fst. cbv zeta.
  unfold valuation. cbn [value price]. split; [reflexivity|].
  destruct (fst (fst (fetch yf (ticker (read_row row))))) as [p|];
    [|destruct (Shares row); reflexivity].
  unfold read_row. cbn [shares]. unfold Py.truthy, Py.notna.
  destruct (Shares row) as [s|].
  - destruct (is_nan s); cbn [negb andb].
    + fold (Py.truthy 0). rewrite truthy_zero, andb_false_r. reflexivity.
    + reflexivity.
  - fold (Py.truthy 0). rewrite truthy_zero, andb_false_r. reflexivity.
Qed.

(** C7: the current price of a row is the price that the provider gave for
    its ticker, rounded to two decimals, and whenever that current price and
    the shares are both present and nonzero the current value is
    round(currentPrice * shares, 2); otherwise the current value is absent.
    So a row with a ticker for which the provider answers with a nonzero
    price [raw], and with a number of shares [s] that is not zero, gets the
    current price round(raw, 2) and, unless that is zero, the current value
    round(round(raw, 2) * s, 2). *)
Theorem current_value_spec (yf : provider) (row : HoldingRow) (info : Info)
    (raw s : float) :
  Py.nonempty (ticker (read_row row)) = true ->
  yf (ticker (read_row row)) = Fetched info ->
  currentPrice info = Some raw ->
  (raw =? 0) = false ->
  Shares row = Some s ->
  is_nan s = false ->
  (s =? 0) = false ->
  let d := fst (process_row yf row) in
  price d = Some (Py.round raw 2)
  /\ value d = (if Py.round raw 2 =? 0 then None
                else Some (Py.round (Py.round raw 2 * s) 2))
  /\ (forall (yf' : provider) (row' : HoldingRow),
        let d' := fst (process_row yf' row') in
        value d' =
        match price d', Shares row' with
        | Some p, Some s' =>
            if negb (p =? 0) && (Py.notna (Some s') && negb (s' =? 0))
            then Some (Py.round (p * s') 2) else None
        | _, _ => None
        end).
Proof.
  intros Ht Hy Hp Hraw Hs Hn Hs0 d.
  assert (Hf : fst (fst (fetch yf (ticker (read_row row))))
               = Some (Py.round raw 2)).
  { unfold fetch. rewrite Ht, Hy, Hp. cbn [fst].
    unfold Py.or_, Py.truthy_opt, round_if_truthy, Py.truthy.
    rewrite Hraw. cbn [negb]. rewrite Hraw. reflexivity. }
  destruct (value_of_price yf row) as [Hprice Hvalue].
  fold d in Hprice, Hvalue. rewrite Hf in Hprice.
  split; [exact Hprice|]. split.
  - rewrite Hvalue, Hprice, Hs. unfold Py.notna. rewrite Hn, Hs0.
    destruct (Py.round raw 2 =? 0); reflexivity.
  - intros yf' row'. apply value_of_price.
Qed.

(** Ten shares of AAPL at 200 are worth 2000. *)
Lemma current_value_witness :
  let d := fst (process_row yf_aapl (holding "AAPL" 10 150)) in
  price d = Some 200 /\ value d = Some 2000.
Proof.
  intros d.
  destruct (current_value_spec yf_aapl (holding "AAPL" 10 150)
              (info_of (Some 200) None) 200 10
              eq_refl eq_refl eq_refl eq_refl eq_refl eq_refl eq_refl)
    as (Hp & Hv & _).
  fold d in Hp, Hv. split; [exact Hp|exact Hv].
Defined.

(** C6, as stated, fails: with a price of 10 and an analyst target of
    0.004 the target column holds 0.0 and the price is positive, yet the
    upside is absent where the specification gives -100. *)
Lemma upside_zero_target_counterexample :
  let d := fst (process_row yf_tiny_target (holding "AAPL" 10 150)) in
  analyst d = Some 0 /\ price d = Some 10
  /\ upside d = None /\ upside_as_specified d = Some (-100)
  /\ upside d <> upside_as_specified d.
Proof. vm_compute. repeat split; discriminate. Qed.

(** C6, amended: analystUpsidePct is absent unless analystTarget and
    currentPrice are both present, analystTarget is nonzero and
    currentPrice > 0; then it is
    round((analystTarget - currentPrice) / currentPrice * 100, 2). *)
Theorem upside_spec (yf : provider) (row : HoldingRow) :
  let d := fst (process_row yf row) in
  upside d =
  match analyst d, price d with
  | Some a, Some p =>
      if negb (a =? 0) && (0 <? p)
      then Some (Py.round ((a - p) / p * 100) 2) else None
  | _, _ => None
  end.
Proof.
  intros d. subst d. rewrite process_row_fst. cbv zeta.
  unfold valuation. cbn [upside analyst price].
  destruct (snd (fst (fetch yf (ticker (read_row row))))) as [a|];
    [|reflexivity].
  destruct (fst (fst (fetch yf (ticker (read_row row))))) as [p|];
    [|reflexivity].
  unfold Py.truthy. destruct (a =? 0); cbn [negb andb]; [reflexivity|].
  destruct (0 <? p) eqn:Hp.
  - rewrite (ltb_zero_nonzero _ Hp). reflexivity.
  - rewrite andb_false_r. reflexivity.
Qed.

Lemma penny_inputs :
  read_row penny_row =
  {| ticker := "PENNY"; shares := 0.01; buy_price := 0.01; your_target := None |}.
Proof. vm_compute. reflexivity. Qed.

Lemma penny_cost :
  Py.truthy 0.01 = true /\ Py.round (0.01 * 0.01) 2 = 0.
Proof. vm_compute. split; reflexivity. Qed.

(** C10: there is a row with strictly positive shares and buy price whose
    totalCost is present and exactly 0, and with a price of 200 its profitAbs
    is present and equal to its currentValue, 2.0.  For every row whose
    totalCost is present and zero, profitPct is absent and profitAbs is
    present exactly when currentValue is, namely
    round(currentValue - totalCost, 2). *)
Theorem rounded_zero_cost_exists :
  (exists (s b : float) (row : HoldingRow),
     Shares row = Some s /\ BuyPrice row = Some b
     /\ (0 <? s) = true /\ (0 <? b) = true
     /\ (forall yf : provider, cost (fst (process_row yf row)) = Some 0)
     /\ (let d := fst (process_row yf_aapl row) in
         value d = Some 2 /\ profit_dollar d = Some 2 /\ profit_pct d = None))
  /\ (forall (yf : provider) (row : HoldingRow),
        let d := fst (process_row yf row) in
        match cost d with
        | Some c =>
            if c =? 0
            then profit_pct d = None
                 /\ profit_dollar d = (fun v => Py.round (v - c) 2) <$> value d
            else True
        | None => True
        end).
Proof.
  split.
  - exists 0.01, 0.01, penny_row.
    destruct penny_cost as [Ht Hc].
    split; [reflexivity|]. split; [reflexivity|].
    split; [vm_compute; reflexivity|]. split; [vm_compute; reflexivity|].
    split; [|vm_compute; repeat split; reflexivity].
    intros yf. rewrite process_row_fst, penny_inputs. cbv zeta.
    cbn [shares buy_price ticker]. unfold valuation. cbn [cost].
    rewrite Ht, Hc. reflexivity.
  - intros yf row d. subst d. rewrite process_row_fst. cbv zeta.
    unfold valuation. cbn [cost profit_pct profit_dollar value].
    destruct (Py.truthy (buy_price (read_row row))
              && Py.truthy (shares (read_row row))); [|exact I].
    destruct (Py.round (buy_price (read_row row) * shares (read_row row)) 2 =? 0)
      eqn:Hz; [|exact I].
    destruct (fst (fst (fetch yf (ticker (read_row row))))) as [p|];
      [|split; reflexivity].
    destruct (Py.truthy p && Py.truthy (shares (read_row row)));
      [|split; reflexivity].
    unfold Py.truthy. rewrite Hz. split; reflexivity.
Qed.

End Valuation.

Section Loop.

Local Open Scope float_scope.

Lemma append_derived_columns_of (ds : list Derived) (d : Derived) :
  append_derived (columns_of ds) d = columns_of (ds ++ [d]).
Proof.
  unfold append_derived, columns_of. cbn.
  rewrite !fmap_app. reflexivity.
Qed.

Lemma fold_loop_step (yf : provider) (rows : list HoldingRow) :
  forall (ds : list Derived) (evs : list ui_event),
    fold_left (loop_step yf) rows (columns_of ds, evs) =
    (columns_of (ds ++ ((fun r => fst (process_row yf r)) <$> rows)),
     evs ++ concat ((fun r => snd (process_row yf r)) <$> rows)).
Proof.
  induction rows as [|r rows IH]; intros ds evs; cbn.
  - rewrite !app_nil_r. reflexivity.
  - unfold loop_step at 2. destruct (process_row yf r) as [d shown0]. cbn.
    rewrite append_derived_columns_of, IH, <- !app_assoc. reflexivity.
Qed.

(** The loop is a map over the rows: row [j] of the new columns is the
    valuation of row [j], and the reports come in row order. *)
Lemma refresh_loop_map (yf : provider) (rows : list HoldingRow) :
  refresh_loop yf rows =
  (columns_of ((fun r => fst (process_row yf r)) <$> rows),
   concat ((fun r => snd (process_row yf r)) <$> rows)).
Proof.
  unfold refresh_loop. change no_columns with (columns_of []).
  apply fold_loop_step.
Qed.

Lemma show_all_run (evs : list ui_event) :
  forall w : World,
    show_all evs w = (inr tt, with_shown (shown w ++ evs) w).
Proof.
  induction evs as [|ev evs IH]; intros w; cbn.
  - rewrite app_nil_r. destruct w; reflexivity.
  - unfold mbind, M_bind, show. rewrite IH. cbn.
    rewrite <- app_assoc. reflexivity.
Qed.

Lemma fold_append_derived (ds : list Derived) :
  forall ds0 : list Derived,
    fold_left append_derived ds (columns_of ds0) = columns_of (ds0 ++ ds).
Proof.
  induction ds as [|d ds IH]; intros ds0; cbn.
  - rewrite app_nil_r. reflexivity.
  - rewrite append_derived_columns_of, IH, <- app_assoc. reflexivity.
Qed.

(** A row of text and numbers under the four holdings columns reads as the
    holding it shows. *)
Lemma typed_row_holding (t : string) (s b : float) (y : option float)
    (rows : list (list cell)) (w : World) :
  typed_row {| columns := holdings_columns; values := rows |}
            [CStr t; CNum s; CNum b; derived_cell y] w
  = (inr {| Ticker := Some t; Shares := Some s; BuyPrice := Some b;
            YourTargetPrice := y |}, w).
Proof. destruct y; reflexivity. Qed.

Lemma loop_rows_fold (yf : provider) (df : DataFrame)
    (rows : list (list cell)) (typed : list HoldingRow) :
  Forall2 (fun r t => forall w, typed_row df r w = (inr t, w)) rows typed ->
  forall (c : Columns) (w : World),
    loop_rows yf df rows c w =
    (inr (fold_left append_derived
            ((fun t => fst (process_row yf t)) <$> typed) c),
     with_shown
       (shown w ++ concat ((fun t => snd (process_row yf t)) <$> typed)) w).
Proof.
  induction 1 as [|r t rows typed Hr _ IH]; intros c w; cbn.
  - rewrite app_nil_r. destruct w; reflexivity.
  - unfold mbind, M_bind. rewrite Hr.
    destruct (process_row yf t) as [d shown0]. cbn [fst snd].
    rewrite show_all_run, IH. destruct w; cbn.
    rewrite <- app_assoc. reflexivity.
Qed.

(** The loop of the script, run over a table whose rows read as [typed],
    computes the seven lists of [refresh_loop] and shows its reports. *)
Lemma loop_rows_refresh_loop (yf : provider) (df : DataFrame)
    (rows : list (list cell)) (typed : list HoldingRow) :
  Forall2 (fun r t => forall w, typed_row df r w = (inr t, w)) rows typed ->
  forall w : World,
    loop_rows yf df rows no_columns w =
    (inr (fst (refresh_loop yf typed)),
     with_shown (shown w ++ snd (refresh_loop yf typed)) w).
Proof.
  intros H w. rewrite (loop_rows_fold yf df rows typed H).
  rewrite refresh_loop_map. cbn [fst snd].
  change no_columns with (columns_of []).
  rewrite fold_append_derived. reflexivity.
Qed.

Lemma derived_at_columns_of (ds : list Derived) (j : nat) :
  derived_at (columns_of ds) j = ds !! j.
Proof.
  unfold derived_at, columns_of. cbn. rewrite !list_lookup_fmap.
  destruct (ds !! j) as [[]|]; reflexivity.
Qed.

Lemma derived_at_refresh (yf : provider) (rows : list HoldingRow) (j : nat) :
  derived_at (fst (refresh_loop yf rows)) j =
  (fun r => fst (process_row yf r)) <$> rows !! j.
Proof.
  rewrite refresh_loop_map. cbn [fst].
  rewrite derived_at_columns_of, list_lookup_fmap. reflexivity.
Qed.

Lemma process_row_raised (yf : provider) (row : HoldingRow) (e : string) :
  Py.nonempty (ticker (read_row row)) = true ->
  yf (ticker (read_row row)) = Raised e ->
  process_row yf row =
  (valuation (shares (read_row row)) (buy_price (read_row row)) None None,
   [UiError ("Error fetching " ++ ticker (read_row row) ++ ": " ++ e)%string]).
Proof.
  intros Hn Hr. unfold process_row, fetch. cbv zeta. rewrite Hn, Hr.
  reflexivity.
Qed.

Lemma process_row_agree (yf yf' : provider) (row : HoldingRow) :
  yf' (ticker (read_row row)) = yf (ticker (read_row row)) ->
  process_row yf' row = process_row yf row.
Proof.
  intros H. unfold process_row, fetch. cbv zeta. rewrite H. reflexivity.
Qed.

(** C4: when the fetch for the ticker of one row raises, an error naming
    that ticker is shown; that row has no current price, current value,
    profit, profit percentage, analyst target or analyst upside; the loop
    still gives every row its values, each computed from that row alone;
    and rows with another ticker get the values they would get if the fetch
    had not failed. *)
Theorem fetch_failure_is_local (yf : provider) (pre post : list HoldingRow)
    (row : HoldingRow) (e : string) :
  let t := ticker (read_row row) in
  let rows := pre ++ row :: post in
  Py.nonempty t = true ->
  yf t = Raised e ->
  In (UiError ("Error fetching " ++ t ++ ": " ++ e)%string)
     (snd (refresh_loop yf rows))
  /\ (exists d, derived_at (fst (refresh_loop yf rows)) (length pre) = Some d
        /\ price d = None /\ value d = None /\ profit_dollar d = None
        /\ profit_pct d = None /\ analyst d = None /\ upside d = None)
  /\ (forall j r, rows !! j = Some r ->
        derived_at (fst (refresh_loop yf rows)) j = Some (fst (process_row yf r)))
  /\ (forall yf' : provider,
        (forall t', t' <> t -> yf' t' = yf t') ->
        forall j r, rows !! j = Some r -> ticker (read_row r) <> t ->
          derived_at (fst (refresh_loop yf' rows)) j =
          derived_at (fst (refresh_loop yf rows)) j).
Proof.
  intros t rows Hn Hr. subst t rows.
  pose proof (process_row_raised yf row e Hn Hr) as Hrow.
  repeat split.
  - rewrite refresh_loop_map. cbn [snd].
    rewrite fmap_app, concat_app. apply in_or_app. right.
    cbn. rewrite Hrow. cbn. left. reflexivity.
  - exists (fst (process_row yf row)). split.
    + rewrite derived_at_refresh.
      rewrite list_lookup_middle by reflexivity. reflexivity.
    + rewrite Hrow. cbn. repeat split; reflexivity.
  - intros j r Hj. rewrite derived_at_refresh, Hj. reflexivity.
  - intros yf' Hag j r Hj Hne.
    rewrite !derived_at_refresh, Hj. cbn.
    rewrite (process_row_agree yf yf' r (Hag _ Hne)). reflexivity.
Qed.

(** The scenario of C4: BADTICKER between two good rows. *)
Lemma fetch_failure_witness :
  In (UiError "Error fetching BADTICKER: HTTP Error 404")
     (snd (refresh_loop yf_bad three_rows))
  /\ derived_at (fst (refresh_loop yf_bad three_rows)) 1 =
     Some {| price := None; value := None; cost := Some 60;
             profit_dollar := None; profit_pct := None;
             analyst := None; upside := None |}
  /\ derived_at (fst (refresh_loop yf_bad three_rows)) 2 =
     Some (fst (process_row yf_bad (holding "MSFT" 1 100))).
Proof.
  destruct (fetch_failure_is_local yf_bad [holding "AAPL" 10 150]
              [holding "MSFT" 1 100] (holding "badticker" 3 20)
              "HTTP Error 404" eq_refl eq_refl) as (Hshown & _ & Hall & _).
  split; [exact Hshown|].
  split; [vm_compute; reflexivity|].
  exact (Hall 2%nat (holding "MSFT" 1 100) eq_refl).
Defined.

End Loop.

Section Totals.

Local Open Scope float_scope.

(** Adding a zero to a sum that is not [-0.0] changes nothing. *)
Lemma add_zero_id (a z : float) :
  Prim2SF a <> S754_zero true -> (z =? 0) = true -> a + z = a.
Proof.
  intros Ha [sz Hz]%eqb_zero_SF. apply Prim2SF_inj.
  rewrite FloatAxioms.add_spec, Hz. unfold SF64add.
  destruct (Prim2SF a) as [sa|sa| |sa ma ea]; cbn [SFadd]; try reflexivity.
  destruct sa, sz; try reflexivity. contradiction.
Qed.

Lemma add_not_neg_zero (a v : float) :
  Prim2SF a <> S754_zero true -> Prim2SF (a + v) <> S754_zero true.
Proof. intros Ha H. apply add_neg_zero in H as [H _]. contradiction. Qed.

(** Summing the truthy items is summing the present ones: the items left
    out are zeros. *)
Lemma sum_truthy_present (l : list (option float)) :
  forall a : float,
    Prim2SF a <> S754_zero true ->
    fold_left (fun acc x => acc + x)
      (omap (fun v => if Py.truthy_opt v then v else None) l) a
    = fold_left (fun acc x => acc + x) (present l) a.
Proof.
  unfold present.
  induction l as [|[v|] l IH]; intros a Ha; cbn.
  - reflexivity.
  - destruct (Py.truthy v) eqn:Hv; cbn.
    + apply IH, add_not_neg_zero, Ha.
    + rewrite (add_zero_id a v Ha) by (apply truthy_false, Hv).
      apply IH, Ha.
  - apply IH, Ha.
Qed.

Lemma present_all_absent (n : nat) : present (replicate n None) = [].
Proof. induction n as [|n IH]; [reflexivity|exact IH]. Qed.

(** C5: the three totals are the sums of the present currentValue,
    totalCost and profitAbs values; with no present value each total is 0. *)
Theorem totals_sum_present_values :
  (forall c : Columns,
     total_value (current_values c) = Py.sum (present (current_values c))
     /\ total_cost (total_costs c) = Py.sum (present (total_costs c))
     /\ total_profit (profits_dollar c) = Py.sum (present (profits_dollar c)))
  /\ (forall n : nat,
        total_value (replicate n None) = 0
        /\ total_cost (replicate n None) = 0
        /\ total_profit (replicate n None) = 0).
Proof.
  assert (Z0 : Prim2SF 0 <> S754_zero true).
  { rewrite Prim2SF_zero. discriminate. }
  assert (T : forall l, total_value l = Py.sum (present l)).
  { intros l. apply sum_truthy_present, Z0. }
  split.
  - intros c. split; [apply T|]. split; [apply T|reflexivity].
  - intros n. rewrite (T (replicate n None)).
    unfold total_cost, total_profit.
    change (Py.sum (omap (fun c => if Py.truthy_opt c then c else None)
                         (replicate n None)))
      with (total_value (replicate n None)).
    rewrite (T (replicate n None)).
    change (omap (fun p : option float => p) (replicate n None))
      with (present (replicate n None)).
    rewrite present_all_absent. split; [|split]; reflexivity.
Qed.

Lemma delta_pct_eq (tp tc : float) :
  delta_pct tp tc = if tc =? 0 then 0 else tp / tc * 100.
Proof.
  unfold delta_pct, Py.truthy. destruct (tc =? 0); reflexivity.
Qed.

(** C8, as stated, fails: for a table whose only row has no buy price the
    total invested is 0, the row's profitPct is absent, and the percentage
    of the metric is the number 0, not an absent value. *)
Lemma delta_zero_cost_counterexample :
  let c := fst (refresh_loop yf_aapl [holding "XYZ" 5 0]) in
  let tp := total_profit (profits_dollar c) in
  let tc := total_cost (total_costs c) in
  tc = 0 /\ profits_pct c = [None]
  /\ delta_as_specified tp tc = None /\ delta_pct tp tc = 0
  /\ Some (delta_pct tp tc) <> delta_as_specified tp tc.
Proof. vm_compute. repeat split; discriminate. Qed.

(** C8, amended: the percentage of the metric has the zero-guard of the
    per-row profitPct, and the division is not performed when the total
    invested is zero; the guarded outcome is the number 0, where the
    per-row profitPct is absent. *)
Theorem delta_pct_guard :
  (forall tp tc : float,
     delta_pct tp tc = if tc =? 0 then 0 else tp / tc * 100)
  /\ (forall (yf : provider) (row : HoldingRow),
        let d := fst (process_row yf row) in
        match profit_dollar d, cost d with
        | Some pd, Some c =>
            profit_pct d =
            if c =? 0 then None else Some (Py.round (pd / c * 100) 2)
        | _, _ => profit_pct d = None
        end).
Proof.
  split; [exact delta_pct_eq|].
  intros yf row d. subst d. rewrite process_row_fst. cbv zeta.
  unfold valuation, Py.truthy. cbn [cost profit_pct profit_dollar].
  destruct (fst (fst (fetch yf (ticker (read_row row))))) as [p|].
  - destruct (negb (p =? 0) && negb (shares (read_row row) =? 0));
      destruct (negb (buy_price (read_row row) =? 0)
                && negb (shares (read_row row) =? 0));
      try reflexivity.
    destruct (Py.round (buy_price (read_row row) * shares (read_row row)) 2 =? 0);
      reflexivity.
  - destruct (negb (buy_price (read_row row) =? 0)
              && negb (shares (read_row row) =? 0)); reflexivity.
Qed.

End Totals.

Section Saving.

Local Open Scope string_scope.

Ltac run_save :=
  unfold save_holdings, try_except, sheet_clear, sheet_append_row,
    sheet_append_rows, remote_write, remote_refused, show, mbind, M_bind; cbn.

(** Saving never raises and leaves the tables of the session alone. *)
Lemma save_holdings_returns (df : DataFrame) (w : World) :
  exists w', save_holdings df w = (inr tt, w')
             /\ heap w' = heap w
             /\ session_holdings w' = session_holdings w.
Proof.
  destruct w as [sh os evs h r]. run_save.
  destruct (json_rows (values df));
    destruct os as [|[e1|] [|[e2|] [|[e3|] os]]];
    cbn; eexists; (split; [reflexivity|split; reflexivity]).
Qed.

(** C9: saving is not atomic.  It never raises and never touches the
    tables held in the session; but when the call after the clear fails the
    sheet is left empty, when the last call fails the sheet holds the
    header only, and in both cases the failure is shown as an error; only a
    failing clear leaves the sheet as it was. *)
Theorem save_is_not_atomic (w : World) (df : DataFrame) (e : string)
    (rest : list (option string)) :
  (exists w', save_holdings df w = (inr tt, w')
              /\ heap w' = heap w
              /\ session_holdings w' = session_holdings w)
  /\ (let w' := snd (save_holdings df (with_outcomes (None :: Some e :: rest) w)) in
      sheet w' = []
      /\ shown w' = (shown w ++ [UiError ("Save failed: " ++ e)])%list)
  /\ (let w' := snd (save_holdings df
                       (with_outcomes (None :: None :: Some e :: rest) w)) in
      sheet w' = [CStr <$> columns df]
      /\ shown w' = (shown w ++ [UiError ("Save failed: " ++ e)])%list)
  /\ (let w' := snd (save_holdings df (with_outcomes (Some e :: rest) w)) in
      sheet w' = sheet w
      /\ shown w' = (shown w ++ [UiError ("Save failed: " ++ e)])%list).
Proof.
  split; [apply save_holdings_returns|].
  run_save. destruct (json_rows (values df)); repeat split.
Qed.

End Saving.

Section RoundTrip.

Local Open Scope string_scope.

Lemma remote_write_ok (f : list (list cell) -> list (list cell)) (w : World) :
  calls_succeed w = true ->
  exists w', remote_write f w = (inr tt, w')
             /\ sheet w' = f (sheet w) /\ calls_succeed w' = true
             /\ shown w' = shown w.
Proof.
  unfold calls_succeed, remote_write.
  destruct (outcomes w) as [|[e|] os] eqn:E; cbn; intros H;
    try discriminate; eexists; split; try reflexivity; cbn;
    repeat split; try assumption.
  rewrite E. reflexivity.
Qed.


Lemma save_holdings_ok (df : DataFrame) (w : World) :
  calls_succeed w = true ->
  json_rows (values df) = true ->
  exists w', save_holdings df w = (inr tt, w')
             /\ sheet w' = (CStr <$> columns df) :: values df
             /\ calls_succeed w' = true.
Proof.
  intros H Hj.
  destruct (remote_write_ok (fun _ => []) w H) as (w1 & E1 & S1 & H1 & _).
  destruct (remote_write_ok (fun sh => sh ++ [CStr <$> columns df])%list w1 H1)
    as (w2 & E2 & S2 & H2 & _).
  destruct (remote_write_ok (fun sh => sh ++ values df)%list w2 H2)
    as (w3 & E3 & S3 & H3 & _).
  unfold save_holdings, try_except, sheet_clear, sheet_append_row,
    sheet_append_rows, mbind, M_bind.
  rewrite Hj, E1, E2, E3. unfold show. eexists. split; [reflexivity|].
  cbn. rewrite S3, S2, S1. split; [reflexivity|exact H3].
Qed.




Lemma col_index_lookup (name : string) (cols : list string) (j : nat) :
  col_index name cols = Some j -> cols !! j = Some name.
Proof.
  revert j. induction cols as [|c cols IH]; intros j; cbn; [discriminate|].
  destruct (String.eqb_spec c name) as [->|Hne].
  - intros [= <-]. reflexivity.
  - destruct (col_index name cols) as [k|]; cbn; [|discriminate].
    intros [= <-]. cbn. apply IH. reflexivity.
Qed.

Lemma col_index_present (name : string) (cols : list string) :
  existsb (String.eqb name) cols = true ->
  exists j, col_index name cols = Some j.
Proof.
  induction cols as [|c cols IH]; cbn; [discriminate|].
  rewrite (String.eqb_sym name c).
  destruct (String.eqb c name); cbn; [intros _; eexists; reflexivity|].
  intros H. destruct (IH H) as [j ->]. eexists. reflexivity.
Qed.

Lemma existsb_lookup (name : string) (cols : list string) (i : nat) :
  cols !! i = Some name -> existsb (String.eqb name) cols = true.
Proof.
  revert i. induction cols as [|c cols IH]; intros [|i]; cbn; try discriminate.
  - intros [= ->]. rewrite String.eqb_refl. reflexivity.
  - intros H. rewrite (IH _ H). apply orb_true_r.
Qed.

(** With distinct labels a label sits at one position only. *)
Lemma nodupb_lookup_inj (cols : list string) (i j : nat) (name : string) :
  nodupb cols = true ->
  cols !! i = Some name -> cols !! j = Some name -> i = j.
Proof.
  revert i j. induction cols as [|c cols IH]; intros i j; [discriminate|].
  cbn. intros [Hc Hn]%andb_true_iff.
  apply negb_true_iff in Hc.
  destruct i as [|i], j as [|j]; cbn; intros Hi Hj.
  - reflexivity.
  - injection Hi as ->. rewrite (existsb_lookup _ _ _ Hj) in Hc. discriminate.
  - injection Hj as ->. rewrite (existsb_lookup _ _ _ Hi) in Hc. discriminate.
  - f_equal. apply IH; assumption.
Qed.

(** Altering the three number columns, one after the other, is the same as
    changing the cells of the number columns, position by position. *)
Lemma alter_number_columns (f : cell -> cell) (cols : list string)
    (row : list cell) (j1 j2 j3 : nat) :
  nodupb cols = true ->
  length row = length cols ->
  col_index "Shares" cols = Some j1 ->
  col_index "Buy Price ($)" cols = Some j2 ->
  col_index "Your Target Price ($)" cols = Some j3 ->
  alter f j3 (alter f j2 (alter f j1 row))
  = zip_with (fun name c => if is_number_column name then f c else c) cols row.
Proof.
  intros Hn Hl H1%col_index_lookup H2%col_index_lookup H3%col_index_lookup.
  assert (N12 : j1 <> j2) by (intros ->; rewrite H1 in H2; discriminate).
  assert (N13 : j1 <> j3) by (intros ->; rewrite H1 in H3; discriminate).
  assert (N23 : j2 <> j3) by (intros ->; rewrite H2 in H3; discriminate).
  apply list_eq. intros i.
  rewrite lookup_zip_with.
  destruct (decide (j3 = i)) as [<-|N3].
  { rewrite list_lookup_alter_eq, !list_lookup_alter_ne by assumption.
    rewrite H3. cbn. destruct (row !! j3); reflexivity. }
  rewrite list_lookup_alter_ne by assumption.
  destruct (decide (j2 = i)) as [<-|N2].
  { rewrite list_lookup_alter_eq, !list_lookup_alter_ne by assumption.
    rewrite H2. cbn. destruct (row !! j2); reflexivity. }
  rewrite list_lookup_alter_ne by assumption.
  destruct (decide (j1 = i)) as [<-|N1].
  { rewrite list_lookup_alter_eq. rewrite H1. cbn.
    destruct (row !! j1); reflexivity. }
  rewrite list_lookup_alter_ne by assumption.
  destruct (cols !! i) as [name|] eqn:Hi; cbn [mbind option_bind].
  - assert (Hnum : is_number_column name = false).
    { unfold is_number_column, number_columns. cbn [existsb].
      destruct (String.eqb_spec name "Shares") as [->|_];
        [destruct N1; eapply nodupb_lookup_inj; eassumption|].
      destruct (String.eqb_spec name "Buy Price ($)") as [->|_];
        [destruct N2; eapply nodupb_lookup_inj; eassumption|].
      destruct (String.eqb_spec name "Your Target Price ($)") as [->|_];
        [destruct N3; eapply nodupb_lookup_inj; eassumption|].
      reflexivity. }
    rewrite Hnum. destruct (row !! i); reflexivity.
  - apply lookup_ge_None. rewrite Hl. apply lookup_ge_None. exact Hi.
Qed.








(** Whatever a cell holds, [to_numeric] makes it a number that is not NaN. *)
Lemma to_numeric_number (lib : Readers) (c : cell) :
  exists x, to_numeric lib c = CNum x /\ is_nan x = false.
Proof.
  assert (N : forall x : float,
             exists y, (if is_nan x then CNum 0 else CNum x) = CNum y
                       /\ is_nan y = false).
  { intros x. destruct (is_nan x) eqn:E; [exists 0%float|exists x]; split;
      reflexivity || assumption. }
  destruct c as [t|x|]; cbn.
  - destruct (pd_number lib t) as [x|]; [apply N|].
    exists 0%float. split; reflexivity.
  - apply N.
  - exists 0%float. split; reflexivity.
Qed.



End RoundTrip.

(** * Further properties of the script *)

(** ** Rules for frames *)

Section Frames.

Context (R : World -> World -> Prop).
Hypothesis R_refl : forall w, R w w.
Hypothesis R_trans : forall w1 w2 w3, R w1 w2 -> R w2 w3 -> R w1 w3.

Lemma keeps_ret {A} (a : A) : keeps R (mret a).
Proof. intros w. apply R_refl. Qed.

Lemma keeps_raise {A} (e : string) : keeps R (@raise A e).
Proof. intros w. apply R_refl. Qed.

Lemma keeps_bind {A B} (m : M A) (k : A -> M B) :
  keeps R m -> (forall a, keeps R (k a)) -> keeps R (m ≫= k).
Proof.
  intros Hm Hk w. specialize (Hm w). unfold mbind, M_bind.
  destruct (m w) as [[e|a] w1]; cbn [snd] in *; [exact Hm|].
  eapply R_trans; [exact Hm|apply Hk].
Qed.

Lemma keeps_try_except {A} (body : M A) (handler : string -> M A) :
  keeps R body -> (forall e, keeps R (handler e)) ->
  keeps R (try_except body handler).
Proof.
  intros Hb Hh w. specialize (Hb w). unfold try_except.
  destruct (body w) as [[e|a] w1]; cbn [snd] in *; [|exact Hb].
  eapply R_trans; [exact Hb|apply Hh].
Qed.

End Frames.

Lemma same_sheet_refl (w : World) : same_sheet w w.
Proof. reflexivity. Qed.

Lemma same_sheet_trans (w1 w2 w3 : World) :
  same_sheet w1 w2 -> same_sheet w2 w3 -> same_sheet w1 w3.
Proof. unfold same_sheet. congruence. Qed.

Lemma same_outcomes_refl (w : World) : same_outcomes w w.
Proof. reflexivity. Qed.

Lemma same_outcomes_trans (w1 w2 w3 : World) :
  same_outcomes w1 w2 -> same_outcomes w2 w3 -> same_outcomes w1 w3.
Proof. unfold same_outcomes. congruence. Qed.

Lemma same_tables_refl (w : World) : same_tables w w.
Proof. split; reflexivity. Qed.

Lemma same_tables_trans (w1 w2 w3 : World) :
  same_tables w1 w2 -> same_tables w2 w3 -> same_tables w1 w3.
Proof. unfold same_tables. intros [] []. split; congruence. Qed.

Lemma same_but_shown_refl (w : World) : same_but_shown w w.
Proof. repeat split. Qed.

Lemma same_but_shown_trans (w1 w2 w3 : World) :
  same_but_shown w1 w2 -> same_but_shown w2 w3 -> same_but_shown w1 w3.
Proof.
  unfold same_but_shown, same_sheet, same_outcomes, same_tables.
  intros (? & ? & ? & ?) (? & ? & ? & ?). repeat split; congruence.
Qed.

Create HintDb frames.

#[local] Hint Resolve same_sheet_refl same_sheet_trans same_outcomes_refl
  same_outcomes_trans same_tables_refl same_tables_trans
  same_but_shown_refl same_but_shown_trans : frames.

(** Frame rules at the four relations, ready for [auto]. *)
Ltac frame_step :=
  first
    [ apply keeps_ret
    | apply keeps_raise
    | apply keeps_bind
    | apply keeps_try_except ];
  eauto with frames.

Section PrimitiveFrames.

Lemma show_same_but_shown (ev : ui_event) : keeps same_but_shown (show ev).
Proof. intros w. repeat split. Qed.

Lemma show_all_same_but_shown (evs : list ui_event) :
  keeps same_but_shown (show_all evs).
Proof.
  induction evs as [|ev evs IH]; cbn [show_all].
  - frame_step.
  - frame_step. apply show_same_but_shown.
Qed.

Lemma remote_read_same_sheet : keeps same_sheet remote_read.
Proof.
  intros w. unfold remote_read, same_sheet.
  destruct (outcomes w) as [|[e|] os]; reflexivity.
Qed.

Lemma remote_read_same_tables : keeps same_tables remote_read.
Proof.
  intros w. unfold remote_read, same_tables.
  destruct (outcomes w) as [|[e|] os]; split; reflexivity.
Qed.

Lemma remote_write_same_tables (f : list (list cell) -> list (list cell)) :
  keeps same_tables (remote_write f).
Proof.
  intros w. unfold remote_write, same_tables.
  destruct (outcomes w) as [|[e|] os]; split; reflexivity.
Qed.

(** Weakening from "only the page changed" to the three frames. *)
Lemma keeps_shown_sheet {A} (m : M A) :
  keeps same_but_shown m -> keeps same_sheet m.
Proof. intros H w. apply H. Qed.

Lemma keeps_shown_outcomes {A} (m : M A) :
  keeps same_but_shown m -> keeps same_outcomes m.
Proof. intros H w. apply H. Qed.

Lemma keeps_shown_tables {A} (m : M A) :
  keeps same_but_shown m -> keeps same_tables m.
Proof. intros H w. apply H. Qed.

End PrimitiveFrames.

(** ** Loading *)

Section Loading.

Local Open Scope string_scope.

Lemma get_all_records_same_sheet (lib : Readers) :
  keeps same_sheet (get_all_records lib).
Proof.
  unfold get_all_records. frame_step; [apply remote_read_same_sheet|].
  intros [|header rows]; [frame_step|]. cbv zeta.
  destruct (negb _); [frame_step|]. destruct rows; frame_step.
Qed.

Lemma get_all_records_same_tables (lib : Readers) :
  keeps same_tables (get_all_records lib).
Proof.
  unfold get_all_records. frame_step; [apply remote_read_same_tables|].
  intros [|header rows]; [frame_step|]. cbv zeta.
  destruct (negb _); [frame_step|]. destruct rows; frame_step.
Qed.

Lemma map_column_keeps (R : World -> World -> Prop) (name : string)
    (f : cell -> cell) (df : DataFrame) :
  (forall w, R w w) -> keeps R (map_column name f df).
Proof.
  intros HR. unfold map_column.
  destruct (col_index name (columns df)); [apply keeps_ret|apply keeps_raise];
    exact HR.
Qed.

Lemma load_holdings_same_sheet (lib : Readers) :
  keeps same_sheet (load_holdings lib).
Proof.
  unfold load_holdings. frame_step.
  - frame_step; [apply get_all_records_same_sheet|].
    intros [df|]; [|frame_step].
    repeat (frame_step; [apply map_column_keeps; auto with frames|intros ?]).
    frame_step.
  - intros e. frame_step; [|intros; frame_step].
    apply keeps_shown_sheet, show_same_but_shown.
Qed.

Lemma load_holdings_same_tables (lib : Readers) :
  keeps same_tables (load_holdings lib).
Proof.
  unfold load_holdings. frame_step.
  - frame_step; [apply get_all_records_same_tables|].
    intros [df|]; [|frame_step].
    repeat (frame_step; [apply map_column_keeps; auto with frames|intros ?]).
    frame_step.
  - intros e. frame_step; [|intros; frame_step].
    apply keeps_shown_tables, show_same_but_shown.
Qed.

(** A handler that returns makes the whole [try] return. *)
Lemma try_except_returns {A} (body : M A) (handler : string -> M A) :
  (forall e w, exists a w', handler e w = (inr a, w')) ->
  forall w, exists a w', try_except body handler w = (inr a, w').
Proof.
  intros Hh w. unfold try_except.
  destruct (body w) as [[e|a] w1]; [apply Hh|eauto].
Qed.

Lemma load_holdings_returns (lib : Readers) (w : World) :
  exists df w', load_holdings lib w = (inr df, w').
Proof.
  apply try_except_returns. intros e w0.
  unfold mbind, M_bind, show, mret, M_ret. eauto.
Qed.

(** X1: loading never raises, whatever the sheet holds and whether or not
    the read succeeds, and it changes neither the sheet nor the tables of the
    session; when the read raises [e] the result is the empty four-column
    table and the warning with [e] is shown. *)
Theorem load_holdings_never_raises (lib : Readers) (w : World) :
  (exists df w', load_holdings lib w = (inr df, w')
                 /\ sheet w' = sheet w /\ heap w' = heap w
                 /\ session_holdings w' = session_holdings w)
  /\ (forall (e : string) (rest : list (option string)),
        load_holdings lib (with_outcomes (Some e :: rest) w) =
        (inr empty_holdings,
         with_shown
           (shown w ++ [UiWarning ("Google Sheets load failed: " ++ e
                                   ++ ". Starting with empty table.")])%list
           (with_outcomes rest w))).
Proof.
  split.
  - destruct (load_holdings_returns lib w) as (df & w' & E).
    pose proof (load_holdings_same_sheet lib w) as Hs.
    pose proof (load_holdings_same_tables lib w) as [Hh Hn].
    rewrite E in Hs, Hh, Hn. exists df, w'. repeat split; assumption.
  - intros e rest. destruct w; reflexivity.
Qed.

Lemma length_fill_gaps (n : nat) (row : list cell) :
  length (fill_gaps n row) = n.
Proof.
  unfold fill_gaps. rewrite length_take, length_app, length_replicate. lia.
Qed.

Lemma col_index_existsb (name : string) (cols : list string) (j : nat) :
  col_index name cols = Some j -> existsb (String.eqb name) cols = true.
Proof. intros H. eapply existsb_lookup, col_index_lookup, H. Qed.

Lemma col_index_none (name : string) (cols : list string) :
  existsb (String.eqb name) cols = false -> col_index name cols = None.
Proof.
  intros H. destruct (col_index name cols) as [j|] eqn:E; [|reflexivity].
  rewrite (col_index_existsb _ _ _ E) in H. discriminate.
Qed.

Lemma numbers_present_numeric (lib : Readers) (cols : list string) :
  forall row : list cell,
    numbers_present cols
      (zip_with (fun name c => if is_number_column name
                               then to_numeric lib c else c) cols row) = true.
Proof.
  unfold numbers_present.
  induction cols as [|name cols IH]; intros [|c row];
    cbn [zip_with zip forallb fst snd]; try reflexivity.
  rewrite IH, andb_true_r.
  destruct (is_number_column name); [|reflexivity].
  destruct (to_numeric_number lib c) as (x & -> & Hx). rewrite Hx. reflexivity.
Qed.

(** What a read of the sheet can give. *)
Lemma get_all_records_cases (lib : Readers) (w : World) :
  exists w',
    (exists e, get_all_records lib w = (inl e, w'))
    \/ get_all_records lib w = (inr None, w')
    \/ (exists labels r rows,
          nodupb labels = true
          /\ get_all_records lib w =
             (inr (Some {| columns := labels;
                           values := (fun row => read_cell lib
                                                 <$> fill_gaps (length labels) row)
                                     <$> r :: rows |}),
              w')).
Proof.
  unfold get_all_records, mbind, M_bind.
  destruct (remote_read w) as [[e|sh] w1]; exists w1; [left; eauto|].
  destruct sh as [|header rows]; [right; left; reflexivity|]. cbv zeta.
  set (n := width (header :: rows)).
  destruct (nodupb (header_label <$> fill_gaps n header)) eqn:Hn; cbn [negb];
    [|left; eexists; reflexivity].
  destruct rows as [|r rows]; [right; left; reflexivity|].
  right; right. exists (header_label <$> fill_gaps n header), r, rows.
  split; [exact Hn|].
  rewrite length_fmap, length_fill_gaps. reflexivity.
Qed.

(** X3: whatever the sheet holds, the table that loading returns has
    distinct column labels, rows as wide as the labels, the three number
    columns, and a number that is not NaN in every cell of those columns. *)
Theorem loaded_table_is_well_formed (lib : Readers) (w : World) :
  match fst (load_holdings lib w) with
  | inr df =>
      frame_ok df = true
      /\ forallb (numbers_present (columns df)) (values df) = true
  | inl _ => False
  end.
Proof.
  unfold load_holdings, try_except, mbind at 1, M_bind at 1.
  destruct (get_all_records_cases lib w)
    as (w1 & [[e E]|[E|(labels & r & rows & Hn & E)]]); rewrite E.
  - cbn. split; reflexivity.
  - cbn. split; reflexivity.
  - unfold map_column, mbind, M_bind. cbn [columns values].
    destruct (col_index "Shares" labels) as [j1|] eqn:E1;
      [|cbn; split; reflexivity].
    cbn [mret M_ret columns values].
    destruct (col_index "Buy Price ($)" labels) as [j2|] eqn:E2;
      [|cbn; split; reflexivity].
    cbn [mret M_ret columns values].
    destruct (col_index "Your Target Price ($)" labels) as [j3|] eqn:E3;
      [|cbn; split; reflexivity].
    cbn [mret M_ret columns values fst].
    set (read := fun row => read_cell lib <$> fill_gaps (length labels) row).
    set (numeric := zip_with (fun name c => if is_number_column name
                                            then to_numeric lib c else c)
                             labels).
    assert (Hv : forall l : list (list cell),
               alter (to_numeric lib) j3 <$> (alter (to_numeric lib) j2 <$>
                 (alter (to_numeric lib) j1 <$> (read <$> l)))
               = (fun row => numeric (read row)) <$> l).
    { induction l as [|x l IH]; [reflexivity|].
      rewrite !fmap_cons, IH. f_equal.
      apply alter_number_columns; try assumption.
      unfold read. rewrite length_fmap. apply length_fill_gaps. }
    rewrite Hv.
    split.
    + unfold frame_ok. cbn [columns values]. rewrite Hn. cbn [andb].
      apply andb_true_iff. split.
      * apply forallb_forall. intros row' Hin.
        apply list_elem_of_In, list_elem_of_fmap in Hin as (row & -> & _).
        apply Nat.eqb_eq. unfold numeric, read.
        rewrite length_zip_with, length_fmap, length_fill_gaps. lia.
      * unfold number_columns. cbn [forallb].
        rewrite (col_index_existsb _ _ _ E1), (col_index_existsb _ _ _ E2),
          (col_index_existsb _ _ _ E3). reflexivity.
    + cbn [columns values]. apply forallb_forall. intros row' Hin.
      apply list_elem_of_In, list_elem_of_fmap in Hin as (row & -> & _).
      apply numbers_present_numeric.
Qed.

(** Filling a row up appends empty texts. *)
Lemma fill_gaps_ge (n : nat) (row : list cell) :
  (length row <= n)%nat ->
  fill_gaps n row = (row ++ replicate (n - length row) (CStr ""))%list.
Proof.
  intros H. unfold fill_gaps. rewrite take_app_ge by exact H.
  rewrite take_replicate. f_equal. f_equal. lia.
Qed.

(** The labels of a filled-up header are those of the header, and empty
    labels. *)
Lemma existsb_filled_header (name : string) (n : nat) (header : list cell) :
  name <> "" ->
  (length header <= n)%nat ->
  existsb (String.eqb name) (header_label <$> fill_gaps n header)
  = existsb (String.eqb name) (header_label <$> header).
Proof.
  intros Hname Hle. rewrite fill_gaps_ge by exact Hle.
  rewrite fmap_app, existsb_app.
  replace (existsb _ (header_label <$> replicate _ _)) with false;
    [apply orb_false_r|].
  induction (n - length header)%nat as [|k IH]; [reflexivity|].
  cbn. rewrite <- IH.
  destruct (String.eqb_spec name ""); [contradiction|reflexivity].
Qed.

(** X2: when the header of the sheet lacks one of the three number columns,
    loading gives the empty four-column table, although the sheet has rows,
    and shows one warning. *)
Theorem load_without_number_column (lib : Readers) (w : World)
    (header r : list cell) (rows : list (list cell)) :
  calls_succeed w = true ->
  sheet w = header :: r :: rows ->
  nodupb (header_label <$> header) = true ->
  forallb (fun name => existsb (String.eqb name) (header_label <$> header))
          number_columns = false ->
  exists w' msg,
    load_holdings lib w = (inr empty_holdings, w')
    /\ shown w' = (shown w ++ [UiWarning msg])%list
    /\ sheet w' = sheet w.
Proof.
  intros Hw Hs _ Hmiss.
  assert (Er : exists w1, remote_read w = (inr (sheet w), w1)
                          /\ shown w1 = shown w /\ sheet w1 = sheet w).
  { unfold calls_succeed in Hw. unfold remote_read.
    destruct (outcomes w) as [|[e|] os]; cbn in Hw; try discriminate;
      eexists; repeat split; reflexivity. }
  destruct Er as (w1 & Er & Hsh & Hsheet).
  unfold load_holdings, try_except, get_all_records, mbind, M_bind.
  rewrite Er, Hs. cbv zeta.
  set (n := width (header :: r :: rows)).
  assert (Hle : (length header <= n)%nat) by apply Nat.le_max_l.
  set (labels := header_label <$> fill_gaps n header).
  assert (Hmiss' : forallb (fun name => existsb (String.eqb name) labels)
                           number_columns = false).
  { rewrite <- Hmiss. unfold number_columns, labels. cbn [forallb].
    rewrite !existsb_filled_header by (exact Hle || discriminate).
    reflexivity. }
  clear Hmiss.
  destruct (nodupb labels); cbn [negb].
  2:{ do 2 eexists. split; [reflexivity|]. cbn. rewrite Hsh, Hsheet, Hs.
      split; reflexivity. }
  unfold map_column, mret, M_ret. cbn [columns values].
  unfold number_columns in Hmiss'. cbn [forallb] in Hmiss'.
  destruct (existsb (String.eqb "Shares") labels) eqn:X1.
  - destruct (col_index_present _ _ X1) as [j1 ->]. cbn [columns values].
    destruct (existsb (String.eqb "Buy Price ($)") labels) eqn:X2.
    + destruct (col_index_present _ _ X2) as [j2 ->]. cbn [columns values].
      destruct (existsb (String.eqb "Your Target Price ($)") labels) eqn:X3;
        [discriminate|].
      rewrite (col_index_none _ _ X3).
      do 2 eexists. split; [reflexivity|]. cbn. rewrite Hsh, Hsheet, Hs.
      split; reflexivity.
    + rewrite (col_index_none _ _ X2).
      do 2 eexists. split; [reflexivity|]. cbn. rewrite Hsh, Hsheet, Hs.
      split; reflexivity.
  - rewrite (col_index_none _ _ X1).
    do 2 eexists. split; [reflexivity|]. cbn. rewrite Hsh, Hsheet, Hs.
    split; reflexivity.
Qed.

(** A sheet with the columns Ticker and Shares only. *)
Lemma load_without_number_column_witness :
  exists w' msg,
    load_holdings decimal_readers two_column_sheet = (inr empty_holdings, w')
    /\ shown w' = [UiWarning msg]
    /\ sheet w' = sheet two_column_sheet.
Proof.
  exact (load_without_number_column decimal_readers two_column_sheet
           [CStr "Ticker"; CStr "Shares"] [CStr "AAPL"; CNum 10] []
           eq_refl eq_refl eq_refl eq_refl).
Defined.

End Loading.

(** ** Saving *)

Section SavingMore.

Local Open Scope string_scope.

Lemma remote_refused_ok {A} (e0 : string) (w : World) :
  calls_succeed w = true ->
  exists w', @remote_refused A e0 w = (inl e0, w')
             /\ sheet w' = sheet w /\ shown w' = shown w.
Proof.
  unfold calls_succeed, remote_refused.
  destruct (outcomes w) as [|[e|] os]; cbn; intros H;
    try discriminate; eexists; repeat split; reflexivity.
Qed.

(** A table with a NaN or an infinite number is refused after the clear and
    the header. *)
Lemma save_holdings_refused (df : DataFrame) (w : World) :
  calls_succeed w = true ->
  json_rows (values df) = false ->
  exists w',
    save_holdings df w = (inr tt, w')
    /\ sheet w' = [CStr <$> columns df]
    /\ exists msg,
         shown w' = (shown w ++ [UiError ("Save failed: " ++ msg)])%list.
Proof.
  intros H Hj.
  destruct (remote_write_ok (fun _ => []) w H) as (w1 & E1 & S1 & H1 & V1).
  destruct (remote_write_ok (fun sh => sh ++ [CStr <$> columns df])%list w1 H1)
    as (w2 & E2 & S2 & H2 & V2).
  destruct (remote_refused_ok (A := unit)
              "Out of range float values are not JSON compliant" w2 H2)
    as (w3 & E3 & S3 & V3).
  eexists. split.
  { unfold save_holdings, try_except, sheet_clear, sheet_append_row,
      sheet_append_rows, mbind, M_bind. rewrite Hj, E1, E2, E3. reflexivity. }
  cbn [sheet shown show snd with_shown].
  rewrite S3, S2, S1, V3, V2, V1. split; [reflexivity|].
  eexists. reflexivity.
Qed.

(** X4: when the calls succeed, a save of a table in which no number is NaN
    or infinite replaces whatever the sheet held by the header and the rows
    of the table and shows the success message, and saving the same table
    again leaves the sheet as it is.  A table with a NaN or an infinite
    number is refused when its rows are sent, after the clear and the
    header: the save shows an error and the sheet holds the header only. *)
Theorem save_replaces_the_sheet (w : World) (df : DataFrame) :
  calls_succeed w = true ->
  exists w',
    save_holdings df w = (inr tt, w')
    /\ (json_rows (values df) = true ->
        sheet w' = (CStr <$> columns df) :: values df
        /\ shown w' =
           (shown w ++ [UiSuccess "Holdings saved to Google Sheets!"])%list
        /\ sheet (snd (save_holdings df w')) = sheet w')
    /\ (json_rows (values df) = false ->
        sheet w' = [CStr <$> columns df]
        /\ exists msg,
             shown w' = (shown w ++ [UiError ("Save failed: " ++ msg)])%list).
Proof.
  intros H.
  destruct (remote_write_ok (fun _ => []) w H) as (w1 & E1 & S1 & H1 & V1).
  destruct (remote_write_ok (fun sh => sh ++ [CStr <$> columns df])%list w1 H1)
    as (w2 & E2 & S2 & H2 & V2).
  destruct (json_rows (values df)) eqn:Hj.
  - destruct (remote_write_ok (fun sh => sh ++ values df)%list w2 H2)
      as (w3 & E3 & S3 & H3 & V3).
    set (w4 := with_shown
                 (shown w3 ++ [UiSuccess "Holdings saved to Google Sheets!"])%list
                 w3).
    assert (E : save_holdings df w = (inr tt, w4)).
    { unfold save_holdings, try_except, sheet_clear, sheet_append_row,
        sheet_append_rows, mbind, M_bind. rewrite Hj, E1, E2, E3. reflexivity. }
    assert (S4 : sheet w4 = (CStr <$> columns df) :: values df).
    { unfold w4. cbn [sheet with_shown]. rewrite S3, S2, S1. reflexivity. }
    assert (H4 : calls_succeed w4 = true) by exact H3.
    exists w4. split; [exact E|]. split; [|discriminate]. intros _.
    split; [exact S4|]. split.
    + unfold w4. cbn [shown with_shown]. rewrite V3, V2, V1. reflexivity.
    + destruct (save_holdings_ok df w4 H4 Hj) as (w5 & E5 & S5 & _).
      rewrite E5, S4. exact S5.
  - destruct (save_holdings_refused df w H Hj) as (w' & E & Hs & Hm).
    exists w'. split; [exact E|]. split; [discriminate|].
    intros _. split; [exact Hs|exact Hm].
Qed.

(** Saving AAPL over a sheet that held MSFT. *)
Lemma save_replaces_the_sheet_witness :
  exists w',
    save_holdings aapl_frame msft_sheet = (inr tt, w')
    /\ sheet w' = [CStr <$> holdings_columns;
                   [CStr "AAPL"; CNum 10; CNum 150; CNum 180]]
    /\ shown w' = [UiSuccess "Holdings saved to Google Sheets!"]
    /\ sheet (snd (save_holdings aapl_frame w')) = sheet w'.
Proof.
  destruct (save_replaces_the_sheet msft_sheet aapl_frame eq_refl)
    as (w' & E & H & _).
  exists w'. split; [exact E|]. exact (H eq_refl).
Defined.

(** X5: when a save fails after the clear, the holdings that were on the
    sheet are lost without a trace in the next session: a load in a new
    session gives the empty table and shows no warning, both when the header
    could not be written and when the rows could not. *)
Theorem failed_save_then_load_is_silent :
  (forall (lib : Readers) (w : World) (df : DataFrame) (e : string),
     let w1 := snd (save_holdings df (with_outcomes [None; Some e] w)) in
     fst (load_holdings lib (new_session w1)) = inr empty_holdings
     /\ shown (snd (load_holdings lib (new_session w1))) = [])
  /\ (forall (lib : Readers) (w : World)
             (hs : list (cell * cell * cell * cell)) (e : string),
        let w1 := snd (save_holdings (holdings_frame hs)
                         (with_outcomes [None; None; Some e] w)) in
        fst (load_holdings lib (new_session w1)) = inr empty_holdings
        /\ shown (snd (load_holdings lib (new_session w1))) = []).
Proof.
  split; intros; destruct w; subst w1;
    unfold save_holdings, try_except, sheet_clear, sheet_append_row,
      sheet_append_rows, mbind, M_bind;
    cbn [remote_write outcomes with_outcomes];
    try destruct (json_rows _); split; reflexivity.
Qed.

End SavingMore.

(** ** The loop body and the loop *)

Section LoopMore.

Local Open Scope float_scope.

(** X6: the loop gives each of the seven lists one entry per row, and what
    it shows is exactly one error for each row whose fetch raised, in row
    order. *)
Theorem refresh_loop_shape (yf : provider) (rows : list HoldingRow) :
  let c := fst (refresh_loop yf rows) in
  (length (current_prices c) = length rows
   /\ length (current_values c) = length rows
   /\ length (total_costs c) = length rows
   /\ length (profits_dollar c) = length rows
   /\ length (profits_pct c) = length rows
   /\ length (analyst_targets c) = length rows
   /\ length (analyst_upside c) = length rows)
  /\ snd (refresh_loop yf rows) = omap (fetch_error yf) rows.
Proof.
  rewrite refresh_loop_map. cbn [fst snd columns_of current_prices
    current_values total_costs profits_dollar profits_pct analyst_targets
    analyst_upside].
  rewrite !length_fmap. split; [repeat split|].
  induction rows as [|r rows IH]; [reflexivity|].
  rewrite fmap_cons. cbn [concat omap list_omap]. rewrite IH.
  unfold process_row, fetch, fetch_error. cbv zeta.
  destruct (Py.nonempty (ticker (read_row r))); [|reflexivity].
  destruct (yf (ticker (read_row r))); reflexivity.
Qed.

Lemma valuation_presence (s b : float) (p a : option float) :
  let d := valuation s b p a in
  has (profit_dollar d) = has (value d) && has (cost d)
  /\ implb (has (profit_pct d)) (has (profit_dollar d)) = true
  /\ implb (has (value d)) (has (price d)) = true
  /\ implb (has (upside d)) (has (analyst d) && has (price d)) = true.
Proof.
  unfold valuation.
  cbn [price value cost profit_dollar profit_pct analyst upside].
  destruct p as [p|], a as [a|];
    repeat match goal with
           | |- context [if ?c then _ else _] => destruct c; cbn [has andb implb]
           end;
    repeat split; reflexivity.
Qed.

(** X7: which values a row can have together.  The profit is present
    exactly when the current value and the cost are; a profit percentage
    needs a profit; a current value needs a price; an upside needs an
    analyst target and a price; and the cost does not depend on the
    provider. *)
Theorem derived_presence (yf : provider) (row : HoldingRow) :
  let d := fst (process_row yf row) in
  has (profit_dollar d) = has (value d) && has (cost d)
  /\ implb (has (profit_pct d)) (has (profit_dollar d)) = true
  /\ implb (has (value d)) (has (price d)) = true
  /\ implb (has (upside d)) (has (analyst d) && has (price d)) = true
  /\ (forall yf' : provider,
        cost (fst (process_row yf' row)) = cost d).
Proof.
  intros d. subst d. rewrite process_row_fst. cbv zeta.
  destruct (valuation_presence (shares (read_row row)) (buy_price (read_row row))
              (fst (fst (fetch yf (ticker (read_row row)))))
              (snd (fst (fetch yf (ticker (read_row row))))))
    as (H1 & H2 & H3 & H4).
  repeat (split; [assumption|]).
  intros yf'. rewrite process_row_fst. reflexivity.
Qed.

Lemma lstrip_all_space (s : string) :
  all_space s = true -> Py.lstrip s = EmptyString.
Proof.
  induction s as [|a s IH]; [reflexivity|]. cbn.
  intros [Ha Hs]%andb_true_iff. rewrite Ha. apply IH, Hs.
Qed.

Lemma rstrip_nonspace_head (a : ascii) (s : string) :
  Py.is_space a = false ->
  exists r, Py.rstrip (String a s) = String a r.
Proof.
  intros Ha. cbn. destruct (Py.rstrip s); rewrite ?Ha; eauto.
Qed.

Lemma lstrip_not_all_space (s : string) :
  all_space s = false ->
  exists a r, Py.lstrip s = String a r /\ Py.is_space a = false.
Proof.
  induction s as [|a s IH]; [discriminate|]. cbn.
  destruct (Py.is_space a) eqn:Ha; cbn; [exact IH|].
  intros _. exists a, s. split; [reflexivity|exact Ha].
Qed.

Lemma upper_nonempty (s : string) : Py.nonempty (Py.upper s) = Py.nonempty s.
Proof. destruct s; reflexivity. Qed.

(** The normalised ticker is empty exactly for a blank cell. *)
Lemma ticker_nonempty (row : HoldingRow) :
  Py.nonempty (ticker (read_row row)) = negb (blank (Ticker row)).
Proof.
  unfold read_row, blank. cbn [ticker].
  destruct (Ticker row) as [s|]; [|reflexivity].
  rewrite upper_nonempty. unfold Py.strip.
  destruct (all_space s) eqn:Hs.
  - rewrite (lstrip_all_space _ Hs). reflexivity.
  - destruct (lstrip_not_all_space _ Hs) as (a & r & -> & Ha).
    destruct (rstrip_nonspace_head a r Ha) as [r' ->]. reflexivity.
Qed.

(** X8: a row whose ticker cell is missing or holds only whitespace is not
    fetched: nothing is shown for it, its price, analyst target, current
    value, profit, profit percentage and upside are absent, and its results
    are the same for every provider; every other row has a non-empty
    ticker. *)
Theorem blank_ticker_is_not_fetched (yf : provider) (row : HoldingRow) :
  blank (Ticker row) = true ->
  process_row yf row =
  (valuation (shares (read_row row)) (buy_price (read_row row)) None None, [])
  /\ (let d := fst (process_row yf row) in
      price d = None /\ analyst d = None /\ value d = None
      /\ profit_dollar d = None /\ profit_pct d = None /\ upside d = None)
  /\ (forall yf' : provider, process_row yf' row = process_row yf row).
Proof.
  intros Hb.
  assert (E : forall y, process_row y row =
              (valuation (shares (read_row row)) (buy_price (read_row row))
                         None None, [])).
  { intros y. unfold process_row, fetch. cbv zeta.
    rewrite ticker_nonempty, Hb. reflexivity. }
  split; [apply E|]. split.
  - rewrite E. cbn. repeat split; reflexivity.
  - intros yf'. rewrite !E. reflexivity.
Qed.

Lemma blank_ticker_witness :
  process_row yf_aapl spaces_row =
  (valuation 10 150 None None, [])
  /\ cost (fst (process_row yf_aapl spaces_row)) = Some 1500.
Proof.
  destruct (blank_ticker_is_not_fetched yf_aapl spaces_row eq_refl)
    as (E & _ & _).
  rewrite E. split; [reflexivity|vm_compute; reflexivity].
Defined.

Lemma is_space_upper (a : ascii) :
  Py.is_space (Py.upper_ascii a) = Py.is_space a.
Proof. destruct a as [[] [] [] [] [] [] [] []]; reflexivity. Qed.

Lemma upper_ascii_idem (a : ascii) :
  Py.upper_ascii (Py.upper_ascii a) = Py.upper_ascii a.
Proof. destruct a as [[] [] [] [] [] [] [] []]; reflexivity. Qed.

Lemma upper_idem (s : string) : Py.upper (Py.upper s) = Py.upper s.
Proof.
  induction s as [|a s IH]; [reflexivity|]. cbn.
  rewrite upper_ascii_idem, IH. reflexivity.
Qed.

Lemma lstrip_upper (s : string) : Py.lstrip (Py.upper s) = Py.upper (Py.lstrip s).
Proof.
  induction s as [|a s IH]; [reflexivity|]. cbn.
  rewrite is_space_upper. destruct (Py.is_space a); [exact IH|reflexivity].
Qed.

Lemma rstrip_upper (s : string) : Py.rstrip (Py.upper s) = Py.upper (Py.rstrip s).
Proof.
  induction s as [|a s IH]; [reflexivity|]. cbn. rewrite IH, is_space_upper.
  destruct (Py.rstrip s); cbn; [destruct (Py.is_space a)|]; reflexivity.
Qed.

Lemma rstrip_idem (s : string) : Py.rstrip (Py.rstrip s) = Py.rstrip s.
Proof.
  induction s as [|a s IH]; [reflexivity|]. cbn.
  destruct (Py.rstrip s) as [|b r] eqn:E.
  - destruct (Py.is_space a) eqn:Ha; [reflexivity|]. cbn. rewrite Ha.
    reflexivity.
  - change (Py.rstrip (String a (String b r)))
      with (match Py.rstrip (String b r) with
            | EmptyString =>
                if Py.is_space a then EmptyString else String a EmptyString
            | String c r0 => String a (String c r0)
            end).
    rewrite IH. reflexivity.
Qed.

Lemma strip_idem (s : string) : Py.strip (Py.strip s) = Py.strip s.
Proof.
  unfold Py.strip. destruct (all_space s) eqn:Hs.
  - rewrite (lstrip_all_space _ Hs). reflexivity.
  - destruct (lstrip_not_all_space _ Hs) as (a & r & -> & Ha).
    destruct (rstrip_nonspace_head a r Ha) as [r' E]. rewrite E.
    cbn [Py.lstrip]. rewrite Ha, <- E. apply rstrip_idem.
Qed.

(** Normalising a ticker twice is normalising it once. *)
Lemma normalise_idem (s : string) :
  Py.upper (Py.strip (Py.upper (Py.strip s))) = Py.upper (Py.strip s).
Proof.
  unfold Py.strip at 1. rewrite lstrip_upper, rstrip_upper.
  fold (Py.strip (Py.strip s)). rewrite strip_idem, upper_idem. reflexivity.
Qed.

(** X9: the results of a row do not change when its ticker is replaced by
    its normalised form (surrounding whitespace removed, ASCII letters in
    upper case): both spellings are fetched and reported under the same
    ticker. *)
Theorem ticker_spelling_is_irrelevant (yf : provider) (s : string)
    (sh b y : option float) :
  process_row yf {| Ticker := Some (Py.upper (Py.strip s)); Shares := sh;
                    BuyPrice := b; YourTargetPrice := y |}
  = process_row yf {| Ticker := Some s; Shares := sh; BuyPrice := b;
                      YourTargetPrice := y |}.
Proof.
  unfold process_row, read_row.
  cbn [Ticker Shares BuyPrice YourTargetPrice ticker shares buy_price].
  rewrite normalise_idem. reflexivity.
Qed.

Lemma absent_values_when_down (yf : provider) (row : HoldingRow) :
  (forall t, exists e, yf t = Raised e) ->
  value (fst (process_row yf row)) = None
  /\ profit_dollar (fst (process_row yf row)) = None.
Proof.
  intros Hd. unfold process_row, fetch. cbv zeta.
  destruct (Hd (ticker (read_row row))) as [e ->].
  destruct (Py.nonempty (ticker (read_row row))); split; reflexivity.
Qed.

(** X10: when the provider raises for every ticker, the total portfolio
    value and the total profit are 0, while the total invested is what it
    is with any other provider. *)
Theorem provider_down_totals (yf : provider) (rows : list HoldingRow) :
  (forall t, exists e, yf t = Raised e) ->
  let c := fst (refresh_loop yf rows) in
  total_value (current_values c) = 0
  /\ total_profit (profits_dollar c) = 0
  /\ (forall yf' : provider,
        total_cost (total_costs (fst (refresh_loop yf' rows))) =
        total_cost (total_costs c)).
Proof.
  intros Hd c. subst c. rewrite refresh_loop_map.
  cbn [fst columns_of current_values profits_dollar total_costs].
  split; [|split].
  - unfold total_value.
    replace (omap _ _) with (@nil float); [reflexivity|].
    induction rows as [|r rows IH]; [reflexivity|].
    rewrite !fmap_cons. cbn [omap list_omap].
    destruct (absent_values_when_down yf r Hd) as [-> _]. exact IH.
  - unfold total_profit.
    replace (omap _ _) with (@nil float); [reflexivity|].
    induction rows as [|r rows IH]; [reflexivity|].
    rewrite !fmap_cons. cbn [omap list_omap].
    destruct (absent_values_when_down yf r Hd) as [_ ->]. exact IH.
  - intros yf'. rewrite refresh_loop_map.
    cbn [fst columns_of total_costs]. f_equal.
    rewrite <- !list_fmap_compose. apply list_fmap_ext.
    intros _ r _. cbn. rewrite !process_row_fst. reflexivity.
Qed.

Lemma provider_down_totals_witness :
  total_value (current_values (fst (refresh_loop yf_down three_rows))) = 0
  /\ total_profit (profits_dollar (fst (refresh_loop yf_down three_rows))) = 0
  /\ total_cost (total_costs (fst (refresh_loop yf_down three_rows))) = 1660.
Proof.
  destruct (provider_down_totals yf_down three_rows
              (fun t => ex_intro _ "connection refused"%string eq_refl))
    as (Hv & Hp & _).
  split; [exact Hv|]. split; [exact Hp|]. vm_compute. reflexivity.
Defined.

End LoopMore.

(** ** Refreshing a table of the session *)

Section RefreshMore.

Local Open Scope string_scope.
Local Open Scope list_scope.

Lemma same_remote_refl (w : World) : same_remote w w.
Proof. split; reflexivity. Qed.

Lemma same_remote_trans (w1 w2 w3 : World) :
  same_remote w1 w2 -> same_remote w2 w3 -> same_remote w1 w3.
Proof.
  unfold same_remote, same_sheet, same_outcomes.
  intros [] []. split; congruence.
Qed.

Hint Resolve same_remote_refl same_remote_trans : frames.

Lemma keeps_shown_remote {A} (m : M A) :
  keeps same_but_shown m -> keeps same_remote m.
Proof. intros H w. destruct (H w) as (? & ? & _). split; assumption. Qed.

Lemma item_keeps (R : World -> World -> Prop) (df : DataFrame)
    (row : list cell) (name : string) :
  (forall w, R w w) -> keeps R (item df row name).
Proof.
  intros HR. unfold item. destruct (col_index name (columns df)) as [j|];
    [destruct (row !! j)|]; (apply keeps_ret || apply keeps_raise); exact HR.
Qed.

Lemma text_cell_keeps (R : World -> World -> Prop) (c : cell) :
  (forall w, R w w) -> keeps R (text_cell c).
Proof.
  intros HR. destruct c as [t|x|]; cbn; [| destruct (is_nan x) |];
    (apply keeps_ret || apply keeps_raise); exact HR.
Qed.

Lemma number_cell_keeps (R : World -> World -> Prop) (c : cell) :
  (forall w, R w w) -> keeps R (number_cell c).
Proof.
  intros HR. destruct c; cbn; (apply keeps_ret || apply keeps_raise); exact HR.
Qed.

Lemma typed_row_same_but_shown (df : DataFrame) (row : list cell) :
  keeps same_but_shown (typed_row df row).
Proof.
  unfold typed_row.
  repeat (frame_step;
          [first [apply item_keeps | apply text_cell_keeps
                 | apply number_cell_keeps]; auto with frames
          | intros ?]).
  frame_step.
Qed.

(** The loop changes nothing but the page. *)
Lemma loop_rows_same_but_shown (yf : provider) (df : DataFrame)
    (rows : list (list cell)) :
  forall acc, keeps same_but_shown (loop_rows yf df rows acc).
Proof.
  induction rows as [|r rows IH]; intros acc; cbn [loop_rows]; [frame_step|].
  frame_step; [apply typed_row_same_but_shown|]. intros row.
  destruct (process_row yf row) as [d evs].
  frame_step. apply show_all_same_but_shown.
Qed.

Lemma deref_same_remote (r : nat) : keeps same_remote (deref r).
Proof. intros w. unfold deref. destruct (heap w !! r); split; reflexivity. Qed.

Lemma assign_same_remote (r : nat) (df : DataFrame) :
  keeps same_remote (assign r df).
Proof. intros w. split; reflexivity. Qed.

Lemma alloc_same_remote (df : DataFrame) : keeps same_remote (alloc df).
Proof. intros w. split; reflexivity. Qed.

Lemma set_session_same_remote (r : nat) :
  keeps same_remote (set_session_holdings r).
Proof. intros w. split; reflexivity. Qed.

Lemma set_column_keeps (R : World -> World -> Prop) (name : string)
    (vals : list cell) (df : DataFrame) :
  (forall w, R w w) -> keeps R (set_column name vals df).
Proof.
  intros HR. unfold set_column. destruct (negb _); [apply keeps_raise, HR|].
  destruct (col_index name (columns df)); apply keeps_ret, HR.
Qed.

Lemma set_column_in_place_same_remote (edited : nat) (name : string)
    (vals : list (option float)) :
  keeps same_remote (set_column_in_place edited name vals).
Proof.
  unfold set_column_in_place.
  frame_step; [apply deref_same_remote|]. intros df.
  frame_step; [apply set_column_keeps; auto with frames|]. intros df'.
  apply assign_same_remote.
Qed.

(** A refresh makes no remote call and leaves the sheet alone. *)
Lemma refresh_same_remote (yf : provider) (edited : nat) :
  keeps same_remote (refresh yf edited).
Proof.
  unfold refresh. frame_step; [apply deref_same_remote|]. intros df.
  frame_step; [apply keeps_shown_remote, loop_rows_same_but_shown|].
  intros c.
  repeat (frame_step; [apply set_column_in_place_same_remote|intros ?]).
  apply set_column_in_place_same_remote.
Qed.

Lemma set_column_ok (name : string) (vals : list cell) (df : DataFrame)
    (w : World) :
  length vals = length (values df) ->
  set_column name vals df w = (inr (put_column name vals df), w).
Proof.
  intros H. unfold set_column, put_column.
  rewrite (proj2 (Nat.eqb_eq _ _) H). cbn [negb].
  destruct (col_index name (columns df)); reflexivity.
Qed.

Lemma length_put_column (name : string) (vals : list cell) (df : DataFrame) :
  length vals = length (values df) ->
  length (values (put_column name vals df)) = length (values df).
Proof.
  intros H. unfold put_column.
  destruct (col_index name (columns df)); cbn [values];
    rewrite length_zip_with; lia.
Qed.

Lemma length_column_cells (vals : list (option float)) :
  length (column_cells vals) = length vals.
Proof. unfold column_cells. apply length_fmap. Qed.

(** Assigning a column to a table that the heap holds at [r]. *)
Lemma set_column_in_place_ok (r : nat) (name : string)
    (vals : list (option float)) (df : DataFrame) (h : list DataFrame)
    (w : World) :
  (r < length h)%nat ->
  length vals = length (values df) ->
  set_column_in_place r name vals (with_heap (<[r := df]> h) w)
  = (inr tt,
     with_heap (<[r := put_column name (column_cells vals) df]> h) w).
Proof.
  intros Hr Hl. unfold set_column_in_place, mbind, M_bind, deref.
  cbn [heap with_heap]. rewrite list_lookup_insert_eq by exact Hr.
  rewrite set_column_ok by (rewrite length_column_cells; exact Hl).
  unfold assign. cbn [heap with_heap]. rewrite list_insert_insert_eq.
  destruct w; reflexivity.
Qed.

Lemma widths_append (c : Columns) (d : Derived) (n : nat) :
  widths c n -> widths (append_derived c d) (S n).
Proof.
  unfold widths, append_derived. cbn. rewrite !length_app. cbn.
  intros (?&?&?&?&?&?&?). repeat split; lia.
Qed.

Lemma loop_rows_widths (yf : provider) (df : DataFrame)
    (rows : list (list cell)) :
  forall (acc : Columns) (n : nat) (w w' : World) (c : Columns),
    widths acc n ->
    loop_rows yf df rows acc w = (inr c, w') ->
    widths c (n + length rows).
Proof.
  induction rows as [|r rows IH]; intros acc n w w' c Hn; cbn [loop_rows].
  - unfold mret, M_ret. intros [= <- _]. cbn. rewrite Nat.add_0_r. exact Hn.
  - unfold mbind, M_bind.
    destruct (typed_row df r w) as [[e|row] w1]; [discriminate|].
    destruct (process_row yf row) as [d evs].
    destruct (show_all evs w1) as [[e|[]] w2]; [discriminate|].
    intros H. cbn [length].
    replace (n + S (length rows))%nat with (S n + length rows)%nat by lia.
    eapply IH; [apply widths_append, Hn|exact H].
Qed.

Lemma bind_inr {A B} (m : M A) (k : A -> M B) (w w' : World) (a : A) :
  m w = (inr a, w') -> (m ≫= k) w = k a w'.
Proof. intros H. unfold mbind, M_bind. rewrite H. reflexivity. Qed.

Lemma bind_inl {A B} (m : M A) (k : A -> M B) (w w' : World) (e : string) :
  m w = (inl e, w') -> (m ≫= k) w = (inl e, w').
Proof. intros H. unfold mbind, M_bind. rewrite H. reflexivity. Qed.

Ltac solve_len :=
  rewrite ?length_column_cells;
  first [lia | rewrite length_put_column; [solve_len|solve_len]].

(** The seven assignments, run on the table that the heap holds at [r]. *)
Lemma put_columns_in_place (r : nat) (c : Columns) (df : DataFrame)
    (h : list DataFrame) (w : World) :
  (r < length h)%nat ->
  widths c (length (values df)) ->
  (set_column_in_place r "Current Price" (current_prices c) ;;
   set_column_in_place r "Current Value ($)" (current_values c) ;;
   set_column_in_place r "Total Cost ($)" (total_costs c) ;;
   set_column_in_place r "Profit/Loss ($)" (profits_dollar c) ;;
   set_column_in_place r "Profit/Loss (%)" (profits_pct c) ;;
   set_column_in_place r "Analyst Target" (analyst_targets c) ;;
   set_column_in_place r "Analyst Upside (%)" (analyst_upside c))
    (with_heap (<[r := df]> h) w)
  = (inr tt, with_heap (<[r := put_columns c df]> h) w).
Proof.
  intros Hr (L1 & L2 & L3 & L4 & L5 & L6 & L7).
  do 6 (erewrite bind_inr;
          [|apply set_column_in_place_ok; [exact Hr|solve_len]]).
  rewrite set_column_in_place_ok; [reflexivity|exact Hr|solve_len].
Qed.

(** What a refresh does to the table at [r]: it raises with the loop and
    then leaves every table alone, or it puts the seven columns. *)
Lemma refresh_run (yf : provider) (r : nat) (df : DataFrame) (w : World) :
  heap w !! r = Some df ->
  match loop_rows yf df (values df) no_columns w with
  | (inl e, w1) => refresh yf r w = (inl e, w1) /\ heap w1 = heap w
  | (inr c, w1) =>
      refresh yf r w =
      (inr tt, with_heap (<[r := put_columns c df]> (heap w)) w1)
      /\ widths c (length (values df))
  end.
Proof.
  intros Hr.
  pose proof (loop_rows_same_but_shown yf df (values df) no_columns w)
    as (_ & _ & Hh & _).
  pose proof (loop_rows_widths yf df (values df) no_columns 0 w) as Hw.
  assert (Hd : deref r w = (inr df, w)) by (unfold deref; rewrite Hr; reflexivity).
  unfold refresh. rewrite (bind_inr _ _ _ _ _ Hd).
  destruct (loop_rows yf df (values df) no_columns w) as [[e|c] w1] eqn:EL;
    cbn [snd] in Hh.
  - rewrite (bind_inl _ _ _ _ _ EL). split; [reflexivity|exact Hh].
  - rewrite (bind_inr _ _ _ _ _ EL).
    specialize (Hw w1 c (ltac:(repeat split)) eq_refl). cbn in Hw.
    split; [|exact Hw].
    assert (Hlt : (r < length (heap w))%nat) by (eapply lookup_lt_Some, Hr).
    assert (E1 : w1 = with_heap (<[r := df]> (heap w)) w1).
    { rewrite list_insert_id by exact Hr. rewrite <- Hh.
      destruct w1; reflexivity. }
    rewrite <- (put_columns_in_place r c df (heap w) w1 Hlt Hw).
    rewrite <- E1. reflexivity.
Qed.

(** X11: a refresh that raises has changed no table of the session and
    not the sheet: the new columns are assigned only after the loop has gone
    through every row. *)
Theorem refresh_raises_without_changes (yf : provider) (r : nat) (w w' : World)
    (e : string) :
  refresh yf r w = (inl e, w') ->
  heap w' = heap w /\ sheet w' = sheet w.
Proof.
  intros H. split.
  - destruct (heap w !! r) as [df|] eqn:Hr.
    + pose proof (refresh_run yf r df w Hr) as Hrun.
      destruct (loop_rows yf df (values df) no_columns w) as [[e1|c] w1].
      * destruct Hrun as [E Hh]. rewrite E in H. injection H as _ <-. exact Hh.
      * destruct Hrun as [E _]. rewrite E in H. discriminate.
    + unfold refresh, mbind, M_bind, deref in H. rewrite Hr in H.
      injection H as _ <-. reflexivity.
  - pose proof (refresh_same_remote yf r w) as [Hs _]. rewrite H in Hs.
    exact Hs.
Qed.

(** Text in the Shares column makes the refresh raise. *)
Lemma refresh_raises_witness :
  (exists e, fst (refresh yf_aapl 0 text_shares_session) = inl e)
  /\ heap (snd (refresh yf_aapl 0 text_shares_session)) =
     heap text_shares_session
  /\ sheet (snd (refresh yf_aapl 0 text_shares_session)) =
     sheet text_shares_session.
Proof.
  split; [eexists; vm_compute; reflexivity|].
  apply (refresh_raises_without_changes yf_aapl 0 text_shares_session
           (snd (refresh yf_aapl 0 text_shares_session))
           "ValueError: could not convert string to float: ten").
  vm_compute. reflexivity.
Defined.

Lemma typed_row_cells (extra_columns : list string) (vs : list (list cell))
    (row : HoldingRow) (extra : list cell) (w : World) :
  typed_row {| columns := holdings_columns ++ extra_columns; values := vs |}
            (cells_of_row row ++ extra) w
  = (inr row, w).
Proof. destruct row as [[t|] [x|] [b|] [y|]]; reflexivity. Qed.

Lemma typed_rows_cells (extra_columns : list string) (vs : list (list cell))
    (ex : HoldingRow -> list cell) (rows : list HoldingRow) :
  Forall2
    (fun r t =>
       forall w,
         typed_row {| columns := holdings_columns ++ extra_columns; values := vs |}
                   r w = (inr t, w))
    ((fun row => cells_of_row row ++ ex row) <$> rows) rows.
Proof.
  induction rows as [|row rows IH]; [constructor|].
  rewrite fmap_cons. constructor; [|exact IH].
  intros w. apply typed_row_cells.
Qed.

Lemma zip_with_fmap2 {A B C D} (f : B -> C -> D) (g : A -> B) (h : A -> C)
    (l : list A) :
  zip_with f (g <$> l) (h <$> l) = (fun x => f (g x) (h x)) <$> l.
Proof.
  induction l as [|x l IH]; [reflexivity|].
  rewrite !fmap_cons. cbn. f_equal. exact IH.
Qed.

Lemma put_column_new (name : string) (cols : list string)
    (g : HoldingRow -> list cell) (proj : Derived -> option float)
    (F : HoldingRow -> Derived) (rows : list HoldingRow) :
  col_index name cols = None ->
  put_column name (column_cells (proj <$> (F <$> rows)))
             {| columns := cols; values := g <$> rows |}
  = {| columns := cols ++ [name];
       values :=
         (fun r => g r ++ [column_cell (existsb has (proj <$> (F <$> rows)))
                                       (proj (F r))]) <$> rows |}.
Proof.
  intros H. unfold put_column, column_cells. cbn [columns values].
  rewrite H. f_equal.
  rewrite <- !list_fmap_compose.
  apply (zip_with_fmap2 (fun row v => row ++ [v])).
Qed.

Lemma put_column_old (name : string) (cols : list string) (j : nat)
    (g : HoldingRow -> list cell) (proj : Derived -> option float)
    (F : HoldingRow -> Derived) (rows : list HoldingRow) :
  col_index name cols = Some j ->
  put_column name (column_cells (proj <$> (F <$> rows)))
             {| columns := cols; values := g <$> rows |}
  = {| columns := cols;
       values :=
         (fun r => <[j := column_cell (existsb has (proj <$> (F <$> rows)))
                                      (proj (F r))]> (g r)) <$> rows |}.
Proof.
  intros H. unfold put_column, column_cells. cbn [columns values].
  rewrite H. f_equal.
  rewrite <- !list_fmap_compose.
  apply (zip_with_fmap2 (fun row v => <[j := v]> row)).
Qed.

(** The seven columns put on a table of holdings, and put again on a table
    that has them. *)
Lemma put_columns_typed_frame (yf : provider) (rows : list HoldingRow) :
  put_columns (fst (refresh_loop yf rows)) (typed_frame rows)
  = refreshed yf rows.
Proof.
  unfold refreshed. rewrite refresh_loop_map.
  unfold put_columns, columns_of, typed_frame, derived_cells.
  cbn [fst current_prices current_values total_costs profits_dollar
       profits_pct analyst_targets analyst_upside].
  rewrite !put_column_new by reflexivity.
  f_equal.
Qed.

Lemma put_columns_refreshed (yf yf0 : provider) (rows : list HoldingRow) :
  put_columns (fst (refresh_loop yf rows)) (refreshed yf0 rows)
  = refreshed yf rows.
Proof.
  unfold refreshed. rewrite !refresh_loop_map.
  unfold put_columns, columns_of, derived_cells.
  cbn [fst current_prices current_values total_costs profits_dollar
       profits_pct analyst_targets analyst_upside].
  rewrite (put_column_old _ _ 4) by reflexivity.
  rewrite (put_column_old _ _ 5) by reflexivity.
  rewrite (put_column_old _ _ 6) by reflexivity.
  rewrite (put_column_old _ _ 7) by reflexivity.
  rewrite (put_column_old _ _ 8) by reflexivity.
  rewrite (put_column_old _ _ 9) by reflexivity.
  rewrite (put_column_old _ _ 10) by reflexivity.
  f_equal.
Qed.

Lemma refresh_typed (yf : provider) (rows : list HoldingRow) (r : nat)
    (w : World) (ex : HoldingRow -> list cell) (extra_columns : list string) :
  let df := {| columns := holdings_columns ++ extra_columns;
               values := (fun row => cells_of_row row ++ ex row) <$> rows |} in
  heap w !! r = Some df ->
  refresh yf r w =
  (inr tt,
   with_heap (<[r := put_columns (fst (refresh_loop yf rows)) df]> (heap w))
     (with_shown (shown w ++ snd (refresh_loop yf rows)) w)).
Proof.
  intros df Hr. pose proof (refresh_run yf r df w Hr) as Hrun.
  rewrite (loop_rows_refresh_loop yf df (values df) rows) in Hrun
    by apply typed_rows_cells.
  destruct Hrun as [E _]. exact E.
Qed.

(** X12: a refresh of a table of holdings returns and leaves, under the same
    name, the table with the seven derived columns added after the four
    holdings columns, each row followed by its own seven values, a missing
    value being NaN in a column in which another row has a number; it shows
    the reports of the loop and changes nothing else. *)
Theorem refresh_adds_the_derived_columns (yf : provider)
    (rows : list HoldingRow) (r : nat) (w : World) :
  heap w !! r = Some (typed_frame rows) ->
  refresh yf r w =
  (inr tt,
   with_heap (<[r := refreshed yf rows]> (heap w))
     (with_shown (shown w ++ snd (refresh_loop yf rows)) w)).
Proof.
  intros Hr. rewrite <- (put_columns_typed_frame yf rows).
  exact (refresh_typed yf rows r w (fun _ => []) [] Hr).
Qed.

Lemma refresh_adds_witness :
  refresh yf_full 0 aapl_session =
  (inr tt,
   with_heap [refreshed yf_full [holding "AAPL" 10 150]] aapl_session).
Proof.
  rewrite (refresh_adds_the_derived_columns yf_full [holding "AAPL" 10 150]
             0 aapl_session eq_refl).
  reflexivity.
Defined.

(** X13: a refresh of a table that was refreshed before overwrites the seven
    derived columns and adds none: the table it leaves is the one a first
    refresh with the same answers of the provider leaves. *)
Theorem refresh_again_overwrites (yf yf0 : provider) (rows : list HoldingRow)
    (r : nat) (w : World) :
  heap w !! r = Some (refreshed yf0 rows) ->
  refresh yf r w =
  (inr tt,
   with_heap (<[r := refreshed yf rows]> (heap w))
     (with_shown (shown w ++ snd (refresh_loop yf rows)) w)).
Proof.
  intros Hr.
  rewrite (refresh_typed yf rows r w
             (fun row => derived_cells (fst (refresh_loop yf0 rows))
                                       (fst (process_row yf0 row)))
             derived_columns Hr).
  cbn zeta. fold (refreshed yf0 rows).
  rewrite put_columns_refreshed. reflexivity.
Qed.

Lemma refresh_again_witness :
  refresh yf_full 0
    (with_heap [refreshed yf_aapl [holding "AAPL" 10 150]] aapl_session)
  = (inr tt,
     with_heap [refreshed yf_full [holding "AAPL" 10 150]] aapl_session).
Proof.
  rewrite (refresh_again_overwrites yf_full yf_aapl [holding "AAPL" 10 150]
             0 (with_heap [refreshed yf_aapl [holding "AAPL" 10 150]]
                  aapl_session) eq_refl).
  reflexivity.
Defined.

End RefreshMore.

(** ** Runs of the script *)

Section Runs.

Local Open Scope string_scope.
Local Open Scope list_scope.

Hint Resolve same_remote_refl same_remote_trans : frames.

Lemma script_run_with (lib : Readers) (yf : provider)
    (edit : DataFrame -> DataFrame) (c : click) :
  script lib yf edit c =
  (open_worksheet ;;
   h ← get_session_holdings ;
   held ← match h with
          | Some r => mret r
          | None =>
              df ← load_holdings lib ;
              r ← alloc df ;
              set_session_holdings r ;;
              mret r
          end ;
   run_with yf edit c held).
Proof. reflexivity. Qed.

Lemma keeps_remote_sheet {A} (m : M A) :
  keeps same_remote m -> keeps same_sheet m.
Proof. intros H w. apply H. Qed.

(** Opening the worksheet changes neither the sheet nor the page nor the
    tables of the session. *)
Lemma open_worksheet_frame (w : World) :
  let w0 := snd (open_worksheet w) in
  sheet w0 = sheet w /\ shown w0 = shown w
  /\ heap w0 = heap w /\ session_holdings w0 = session_holdings w.
Proof.
  destruct w as [sh os evs h r].
  unfold open_worksheet, open_by_key, sheet1, remote_read, mbind, M_bind.
  destruct os as [|[e|] [|[e'|] os]]; cbn; repeat split.
Qed.

Lemma open_worksheet_same_sheet : keeps same_sheet open_worksheet.
Proof. intros w. apply open_worksheet_frame. Qed.

Lemma open_worksheet_ok (w : World) :
  calls_succeed w = true ->
  exists w0, open_worksheet w = (inr tt, w0) /\ calls_succeed w0 = true.
Proof.
  destruct w as [sh os evs h r].
  unfold calls_succeed, open_worksheet, open_by_key, sheet1, remote_read,
    mbind, M_bind.
  destruct os as [|[e|] [|[e'|] os]]; cbn; intros H; try discriminate;
    eexists; (split; [reflexivity|]); cbn; try reflexivity; exact H.
Qed.

Lemma run_with_same_remote (yf : provider) (edit : DataFrame -> DataFrame)
    (c : click) (held : nat) :
  c <> ClickSave -> keeps same_remote (run_with yf edit c held).
Proof.
  intros Hc. unfold run_with.
  frame_step; [apply deref_same_remote|]. intros df.
  frame_step; [apply alloc_same_remote|]. intros edited.
  frame_step; [apply set_session_same_remote|]. intros _.
  destruct c; [frame_step|contradiction|apply refresh_same_remote].
Qed.

Lemma script_same_sheet (lib : Readers) (yf : provider)
    (edit : DataFrame -> DataFrame) (c : click) :
  c <> ClickSave -> keeps same_sheet (script lib yf edit c).
Proof.
  intros Hc. rewrite script_run_with.
  frame_step; [apply open_worksheet_same_sheet|]. intros _.
  frame_step; [intros w; reflexivity|]. intros h.
  frame_step; [|intros held; apply keeps_remote_sheet, run_with_same_remote, Hc].
  destruct h as [r|]; [frame_step|].
  frame_step; [apply load_holdings_same_sheet|]. intros df.
  frame_step; [apply keeps_remote_sheet, alloc_same_remote|]. intros r.
  frame_step; [apply keeps_remote_sheet, set_session_same_remote|].
  intros _. frame_step.
Qed.

(** A run in which the worksheet cannot be opened stops there. *)
Lemma script_not_opened (lib : Readers) (yf : provider)
    (edit : DataFrame -> DataFrame) (c : click) (w w0 : World) (e : string) :
  open_worksheet w = (inl e, w0) ->
  script lib yf edit c w = (inl e, w0).
Proof. intros H. rewrite script_run_with. exact (bind_inl _ _ _ _ _ H). Qed.

Lemma script_with_session (lib : Readers) (yf : provider)
    (edit : DataFrame -> DataFrame) (c : click) (r : nat) (w w0 : World) :
  open_worksheet w = (inr tt, w0) ->
  session_holdings w = Some r ->
  script lib yf edit c w = run_with yf edit c r w0.
Proof.
  intros Ho H. rewrite script_run_with, (bind_inr _ _ _ _ _ Ho).
  pose proof (open_worksheet_frame w) as (_ & _ & _ & Hn).
  rewrite Ho in Hn. cbn [snd] in Hn.
  unfold mbind at 1, M_bind at 1, get_session_holdings. rewrite Hn, H.
  reflexivity.
Qed.

(** X14: only a click on Save changes the sheet: a run without a click and
    a run that refreshes leave it as it was; and once the session holds a
    table, the only calls to the spreadsheet service that such runs make are
    those that open the worksheet at the start of every run. *)
Theorem only_save_reaches_the_sheet (lib : Readers) (yf : provider)
    (edit : DataFrame -> DataFrame) (w : World) :
  sheet (snd (script lib yf edit NoClick w)) = sheet w
  /\ sheet (snd (script lib yf edit ClickRefresh w)) = sheet w
  /\ (forall r : nat,
        let w1 := with_session_holdings (Some r) w in
        outcomes (snd (script lib yf edit NoClick w1))
        = outcomes (snd (open_worksheet w1))
        /\ outcomes (snd (script lib yf edit ClickRefresh w1))
           = outcomes (snd (open_worksheet w1))).
Proof.
  split; [apply (script_same_sheet lib yf edit NoClick); discriminate|].
  split; [apply (script_same_sheet lib yf edit ClickRefresh); discriminate|].
  intros r w1.
  destruct (open_worksheet w1) as [[e|[]] w0] eqn:Ho.
  - rewrite !(script_not_opened _ _ _ _ _ _ _ Ho). split; reflexivity.
  - rewrite !(script_with_session _ _ _ _ r _ _ Ho) by reflexivity.
    cbn [snd]. split.
    + exact (proj2 (run_with_same_remote yf edit NoClick r
                      ltac:(discriminate) w0)).
    + exact (proj2 (run_with_same_remote yf edit ClickRefresh r
                      ltac:(discriminate) w0)).
Qed.

Lemma run_with_edits (yf : provider) (edit : DataFrame -> DataFrame)
    (r : nat) (df : DataFrame) (w : World) (k : nat -> M unit) :
  heap w !! r = Some df ->
  (df0 ← deref r ; edited ← alloc (edit df0) ;
   set_session_holdings edited ;; k edited) w
  = k (length (heap w))
      (with_session_holdings (Some (length (heap w)))
         (with_heap (heap w ++ [edit df]) w)).
Proof.
  intros Hr. unfold mbind, M_bind, deref. rewrite Hr. reflexivity.
Qed.

(** A click on Save in a session that holds a table. *)
Lemma run_save_click (lib : Readers) (yf : provider)
    (edit : DataFrame -> DataFrame) (w : World) (r : nat) (df : DataFrame) :
  session_holdings w = Some r ->
  heap w !! r = Some df ->
  calls_succeed w = true ->
  exists w',
    script lib yf edit ClickSave w = (inr tt, w')
    /\ (json_rows (values (edit df)) = true ->
        sheet w' = (CStr <$> columns (edit df)) :: values (edit df))
    /\ (json_rows (values (edit df)) = false ->
        sheet w' = [CStr <$> columns (edit df)]
        /\ exists msg,
             shown w' = (shown w ++ [UiError ("Save failed: " ++ msg)])%list)
    /\ heap w' = heap w ++ [edit df]
    /\ session_holdings w' = Some (length (heap w)).
Proof.
  intros Hs Hr Hc.
  destruct (open_worksheet_ok w Hc) as (w0 & Ho & Hc0).
  pose proof (open_worksheet_frame w) as (_ & Hv0 & Hh0 & _).
  rewrite Ho in Hv0, Hh0. cbn [snd] in Hv0, Hh0.
  rewrite (script_with_session _ _ _ _ r _ _ Ho) by exact Hs.
  unfold run_with. rewrite <- Hh0 in Hr.
  rewrite (run_with_edits yf edit r df w0
             (fun edited => df ← deref edited ; save_holdings df))
    by exact Hr.
  rewrite Hh0.
  set (w2 := with_session_holdings (Some (length (heap w)))
               (with_heap (heap w ++ [edit df]) w0)).
  assert (Hd : deref (length (heap w)) w2 = (inr (edit df), w2)).
  { unfold deref, w2. cbn [heap with_heap with_session_holdings].
    rewrite list_lookup_middle by reflexivity. reflexivity. }
  rewrite (bind_inr _ _ _ _ _ Hd).
  destruct (save_holdings_returns (edit df) w2) as (w' & E & Hh & Hn).
  exists w'. split; [exact E|]. split; [|split; [|split; assumption]].
  - intros Hj.
    destruct (save_holdings_ok (edit df) w2 Hc0 Hj) as (w'' & E' & Hsheet & _).
    rewrite E in E'. injection E' as <-. exact Hsheet.
  - intros Hj.
    destruct (save_holdings_refused (edit df) w2 Hc0 Hj)
      as (w'' & E' & Hsheet & msg & Hm).
    rewrite E in E'. injection E' as <-. split; [exact Hsheet|].
    exists msg. rewrite Hm. unfold w2. cbn [shown with_heap
      with_session_holdings]. rewrite Hv0. reflexivity.
Qed.

(** X15: in a session that holds a table, a run opens the worksheet, hands
    that table to the editor, and from then on the session holds the table
    the editor gave back.  When the calls succeed, a click on Save writes
    exactly that edited table to the sheet, header first, unless it holds a
    NaN or an infinite number: then the rows are refused, the sheet is left
    with the header only and an error is shown. *)
Theorem save_click_writes_the_edited_table (lib : Readers) (yf : provider)
    (edit : DataFrame -> DataFrame) (w : World) (r : nat) (df : DataFrame) :
  session_holdings w = Some r ->
  heap w !! r = Some df ->
  calls_succeed w = true ->
  script lib yf edit NoClick w =
  (inr tt, with_session_holdings (Some (length (heap w)))
             (with_heap (heap w ++ [edit df]) (snd (open_worksheet w))))
  /\ exists w',
       script lib yf edit ClickSave w = (inr tt, w')
       /\ (json_rows (values (edit df)) = true ->
           sheet w' = (CStr <$> columns (edit df)) :: values (edit df))
       /\ (json_rows (values (edit df)) = false ->
           sheet w' = [CStr <$> columns (edit df)]
           /\ exists msg,
                shown w' = (shown w ++ [UiError ("Save failed: " ++ msg)])%list)
       /\ heap w' = heap w ++ [edit df]
       /\ session_holdings w' = Some (length (heap w)).
Proof.
  intros Hs Hr Hc.
  split; [|apply (run_save_click lib yf edit w r df); assumption].
  destruct (open_worksheet_ok w Hc) as (w0 & Ho & _).
  pose proof (open_worksheet_frame w) as (_ & _ & Hh0 & _).
  rewrite Ho in Hh0 |- *. cbn [snd] in Hh0 |- *.
  rewrite (script_with_session _ _ _ _ r _ _ Ho) by exact Hs.
  unfold run_with. rewrite <- Hh0 in Hr.
  rewrite (run_with_edits yf edit r df w0) by exact Hr.
  rewrite Hh0. reflexivity.
Qed.

Lemma save_click_witness :
  exists w',
    script decimal_readers yf_aapl type_aapl ClickSave aapl_session = (inr tt, w')
    /\ sheet w' = [CStr <$> holdings_columns;
                   [CStr "AAPL"; CNum 10; CNum 150; CNone];
                   [CStr "AAPL"; CNum 10; CNum 150; CNum 180]].
Proof.
  destruct (save_click_writes_the_edited_table decimal_readers yf_aapl type_aapl
              aapl_session 0 (typed_frame [holding "AAPL" 10 150])
              eq_refl eq_refl eq_refl)
    as (_ & w' & E & Hs & _).
  exists w'. split; [exact E|exact (Hs eq_refl)].
Defined.

(** X16: the first run of a session opens the worksheet, outside any [try]:
    when that raises, the run raises with it and the session holds no table.
    When the worksheet is open, the run loads the sheet once, keeps what it
    loaded and hands it to the editor; it returns even when the read fails,
    and the session then holds the edited table. *)
Theorem first_run_loads_the_sheet (lib : Readers) (yf : provider)
    (edit : DataFrame -> DataFrame) (w : World) :
  session_holdings w = None ->
  (forall w0 : World,
     open_worksheet w = (inr tt, w0) ->
     exists df w1,
       load_holdings lib w0 = (inr df, w1)
       /\ script lib yf edit NoClick w =
          (inr tt,
           with_session_holdings (Some (S (length (heap w))))
             (with_heap (heap w ++ [df; edit df]) w1)))
  /\ (forall (e : string) (w0 : World) (c : click),
        open_worksheet w = (inl e, w0) ->
        script lib yf edit c w = (inl e, w0)
        /\ session_holdings w0 = None /\ heap w0 = heap w
        /\ sheet w0 = sheet w /\ shown w0 = shown w).
Proof.
  intros Hs.
  pose proof (open_worksheet_frame w) as Hf. cbv zeta in Hf.
  split.
  - intros w0 Ho. rewrite Ho in Hf. cbn [snd] in Hf.
    destruct Hf as (_ & _ & Hh0 & Hn0).
    destruct (load_holdings_returns lib w0) as (df & w1 & E).
    pose proof (load_holdings_same_tables lib w0) as [Hh Hn].
    rewrite E in Hh, Hn. cbn [snd] in Hh, Hn.
    exists df, w1. split; [exact E|].
    rewrite script_run_with, (bind_inr _ _ _ _ _ Ho).
    unfold mbind at 1, M_bind at 1, get_session_holdings.
    rewrite Hn0, Hs.
    unfold run_with, mbind, M_bind. rewrite E.
    unfold alloc, set_session_holdings, deref, mret, M_ret.
    cbn [heap with_heap with_session_holdings].
    rewrite Hh, Hh0.
    rewrite (lookup_app_r (heap w) [df] (length (heap w))) by lia.
    rewrite Nat.sub_diag. cbn [lookup list_lookup].
    destruct w1; cbn in *. rewrite length_app, <- app_assoc. cbn.
    rewrite Nat.add_1_r. reflexivity.
  - intros e w0 c Ho. rewrite Ho in Hf. cbn [snd] in Hf.
    destruct Hf as (Hsh & Hv & Hh0 & Hn0).
    split; [exact (script_not_opened lib yf edit c w w0 e Ho)|].
    rewrite Hn0. repeat split; assumption.
Qed.

Lemma first_run_witness :
  exists w1,
    script decimal_readers yf_aapl id NoClick msft_sheet =
    (inr tt,
     with_session_holdings (Some 1%nat)
       (with_heap [holdings_frame [(CStr "MSFT", CNum 1, CNum 100, CNum 120)];
                   holdings_frame [(CStr "MSFT", CNum 1, CNum 100, CNum 120)]]
                  w1)).
Proof.
  destruct (first_run_loads_the_sheet decimal_readers yf_aapl id msft_sheet eq_refl)
    as [H _].
  destruct (H msft_sheet eq_refl) as (df & w1 & E & Hrun).
  exists w1. rewrite Hrun.
  assert (Hdf : df = holdings_frame [(CStr "MSFT", CNum 1, CNum 100, CNum 120)]).
  { assert (H0 : fst (load_holdings decimal_readers msft_sheet) = inr df)
      by (rewrite E; reflexivity).
    vm_compute in H0. injection H0 as <-. vm_compute. reflexivity. }
  rewrite Hdf. reflexivity.
Defined.

Lemma run_refresh_click (lib : Readers) (yf : provider)
    (edit : DataFrame -> DataFrame) (w w0 : World) (r : nat) (df : DataFrame)
    (rows : list HoldingRow) :
  open_worksheet w = (inr tt, w0) ->
  session_holdings w = Some r ->
  heap w !! r = Some df ->
  edit df = typed_frame rows ->
  script lib yf edit ClickRefresh w =
  (inr tt,
   with_heap (heap w ++ [refreshed yf rows])
     (with_shown (shown w ++ snd (refresh_loop yf rows))
        (with_session_holdings (Some (length (heap w))) w0))).
Proof.
  intros Ho Hs Hr He.
  pose proof (open_worksheet_frame w) as (_ & Hv0 & Hh0 & _).
  rewrite Ho in Hv0, Hh0. cbn [snd] in Hv0, Hh0.
  rewrite (script_with_session _ _ _ _ r _ _ Ho) by exact Hs.
  unfold run_with. rewrite <- Hh0 in Hr.
  rewrite (run_with_edits yf edit r df w0 (refresh yf)) by exact Hr.
  rewrite He.
  assert (X : forall r0 w',
             heap w' !! r0 = Some (typed_frame rows) ->
             refresh yf r0 w' =
             (inr tt,
              with_heap (<[r0 := refreshed yf rows]> (heap w'))
                (with_shown (shown w' ++ snd (refresh_loop yf rows)) w'))).
  { intros r0 w' H0. rewrite <- (put_columns_typed_frame yf rows).
    exact (refresh_typed yf rows r0 w' (fun _ => []) [] H0). }
  erewrite (X (length (heap w0))).
  - cbn [heap shown with_heap with_session_holdings].
    rewrite insert_app_r_alt by lia. rewrite Nat.sub_diag.
    rewrite Hh0, Hv0. destruct w0; reflexivity.
  - cbn [heap with_heap with_session_holdings].
    apply list_lookup_middle. reflexivity.
Qed.

(** A column with a number in one row and none in another makes the table
    one that the client refuses. *)
Lemma mixed_column_refused (yf : provider) (rows : list HoldingRow) :
  existsb mixed (columns_list (fst (refresh_loop yf rows))) = true ->
  json_rows (values (refreshed yf rows)) = false.
Proof.
  intros H. apply not_true_is_false. intros Hj.
  apply existsb_exists in H as (col & Hin & Hmixed).
  unfold mixed in Hmixed. apply andb_true_iff in Hmixed as [Hsome Hnone].
  apply existsb_exists in Hnone as (o & Ho & Hno).
  destruct o as [x|]; [discriminate|]. clear Hno.
  unfold refreshed, json_rows in Hj. cbn [values] in Hj.
  rewrite forallb_forall in Hj.
  set (c := fst (refresh_loop yf rows)) in *.
  assert (Hc : c = columns_of ((fun r => fst (process_row yf r)) <$> rows)).
  { unfold c. rewrite refresh_loop_map. reflexivity. }
  assert (K : forall (proj : Derived -> option float),
             col = proj <$> ((fun r => fst (process_row yf r)) <$> rows) ->
             exists row, In row rows
                         /\ proj (fst (process_row yf row)) = None).
  { intros proj ->. apply list_elem_of_In in Ho.
    apply list_elem_of_fmap in Ho as (d & Hd & Hin').
    apply list_elem_of_fmap in Hin' as (row & -> & Hrow).
    exists row. split; [apply list_elem_of_In, Hrow|]. symmetry. exact Hd. }
  assert (Bad : forall row, In row rows ->
                  forallb json_cell
                    (cells_of_row row
                     ++ derived_cells c (fst (process_row yf row))) = true).
  { intros row Hrow. apply Hj. apply list_elem_of_In.
    apply list_elem_of_fmap. exists row.
    split; [reflexivity|apply list_elem_of_In, Hrow]. }
  unfold columns_list in Hin. rewrite Hc in Hin.
  cbn [columns_of current_prices current_values total_costs profits_dollar
       profits_pct analyst_targets analyst_upside In] in Hin.
  destruct Hin as [E|[E|[E|[E|[E|[E|[E|[]]]]]]]];
    symmetry in E; destruct (K _ E) as (row & Hrow & Hnone);
    specialize (Bad row Hrow);
    rewrite forallb_app in Bad; apply andb_true_iff in Bad as [_ Bad];
    unfold derived_cells in Bad; rewrite Hc in Bad;
    cbn [columns_of current_prices current_values total_costs profits_dollar
         profits_pct analyst_targets analyst_upside] in Bad;
    rewrite <- E, Hsome, Hnone in Bad; cbn in Bad;
    rewrite ?andb_false_r in Bad; discriminate.
Qed.

(** X19: the derived columns stay in the table that the session holds.
    After a run with a click on Refresh the session holds the refreshed
    table, and a later click on Save, with nothing changed in the editor,
    sends the holdings together with the seven derived columns.  When the
    calls succeed and no number of that table is NaN or infinite, the sheet
    then holds all eleven columns.  When some derived column has a number in
    one row and none in another, the missing value is NaN, the rows are
    refused after the clear and the header, and the sheet is left with the
    header only: the holdings that were on the sheet are lost. *)
Theorem refresh_then_save_writes_derived_columns (lib : Readers)
    (yf yf' : provider) (edit : DataFrame -> DataFrame) (w : World) (r : nat)
    (df : DataFrame) (rows : list HoldingRow) :
  session_holdings w = Some r ->
  heap w !! r = Some df ->
  edit df = typed_frame rows ->
  calls_succeed w = true ->
  let w1 := snd (script lib yf edit ClickRefresh w) in
  let w2 := snd (script lib yf' id ClickSave w1) in
  session_holdings w1 = Some (length (heap w))
  /\ heap w1 !! length (heap w) = Some (refreshed yf rows)
  /\ (json_rows (values (refreshed yf rows)) = true ->
      sheet w2 = (CStr <$> (holdings_columns ++ derived_columns))
                 :: values (refreshed yf rows))
  /\ (json_rows (values (refreshed yf rows)) = false ->
      sheet w2 = [CStr <$> (holdings_columns ++ derived_columns)]
      /\ exists msg, In (UiError ("Save failed: " ++ msg)) (shown w2))
  /\ (existsb mixed (columns_list (fst (refresh_loop yf rows))) = true ->
      json_rows (values (refreshed yf rows)) = false).
Proof.
  intros Hs Hr He Hc w1 w2. subst w2 w1.
  destruct (open_worksheet_ok w Hc) as (w0 & Ho & Hc0).
  rewrite (run_refresh_click lib yf edit w w0 r df rows Ho Hs Hr He). cbn [snd].
  set (w1 := with_heap _ _).
  assert (Hs1 : session_holdings w1 = Some (length (heap w))) by reflexivity.
  assert (Hr1 : heap w1 !! length (heap w) = Some (refreshed yf rows)).
  { unfold w1. cbn [heap with_heap]. apply list_lookup_middle. reflexivity. }
  assert (Hc1 : calls_succeed w1 = true) by exact Hc0.
  split; [exact Hs1|]. split; [exact Hr1|].
  destruct (run_save_click lib yf' id w1 _ _ Hs1 Hr1 Hc1)
    as (w' & E & Hok & Hbad & _).
  rewrite E. cbn [snd]. split; [exact Hok|]. split.
  - intros Hj. destruct (Hbad Hj) as (Hsheet & msg & Hm).
    split; [exact Hsheet|]. exists msg. rewrite Hm.
    apply in_or_app. right. left. reflexivity.
  - apply mixed_column_refused.
Qed.

(** One holding with all its values, and three holdings of which one has a
    ticker that the provider does not know. *)
Lemma refresh_then_save_witness :
  sheet (snd (script decimal_readers yf_full id ClickSave
                (snd (script decimal_readers yf_full id ClickRefresh aapl_session))))
  = [CStr <$> (holdings_columns ++ derived_columns);
     [CStr "AAPL"; CNum 10; CNum 150; CNone; CNum 200; CNum 2000; CNum 1500;
      CNum 500; CNum 33.33; CNum 210; CNum 5]]
  /\ sheet (snd (script decimal_readers yf_bad id ClickSave
                   (snd (script decimal_readers yf_bad id ClickRefresh
                           three_rows_session))))
     = [CStr <$> (holdings_columns ++ derived_columns)].
Proof.
  split.
  - destruct (refresh_then_save_writes_derived_columns decimal_readers yf_full
                yf_full id aapl_session 0 (typed_frame [holding "AAPL" 10 150])
                [holding "AAPL" 10 150] eq_refl eq_refl eq_refl eq_refl)
      as (_ & _ & H & _).
    rewrite (H eq_refl). vm_compute. reflexivity.
  - destruct (refresh_then_save_writes_derived_columns decimal_readers yf_bad
                yf_bad id three_rows_session 0 (typed_frame three_rows)
                three_rows eq_refl eq_refl eq_refl eq_refl)
      as (_ & _ & _ & H & Hmixed).
    destruct (H (Hmixed eq_refl)) as [Hsheet _]. exact Hsheet.
Defined.

End Runs.

(** ** The charts *)

Section ChartsMore.

Local Open Scope string_scope.
Local Open Scope list_scope.

Lemma is_missing_derived_cell (o : option float) :
  is_missing (derived_cell o) = negb (Py.notna o).
Proof. destruct o as [x|]; cbn; [destruct (is_nan x)|]; reflexivity. Qed.

Lemma is_missing_column_cell (floats : bool) (o : option float) :
  is_missing (column_cell floats o) = negb (Py.notna o).
Proof.
  destruct o as [x|]; cbn; [destruct (is_nan x)|destruct floats]; reflexivity.
Qed.

(** A value that is there is the same cell in every column. *)
Lemma column_cell_notna (floats : bool) (o : option float) :
  Py.notna o = true -> column_cell floats o = derived_cell o.
Proof. destruct o; [reflexivity|discriminate]. Qed.

Lemma filter_fmap {A B} (f : A -> B) (p : B -> bool) (l : list A) :
  List.filter p (f <$> l) = f <$> List.filter (fun x => p (f x)) l.
Proof.
  induction l as [|x l IH]; [reflexivity|].
  rewrite fmap_cons. cbn. destruct (p (f x)); rewrite IH; reflexivity.
Qed.

Lemma frame_empty_refreshed_rows (cols : list string) (f : HoldingRow -> list cell)
    (rows : list HoldingRow) :
  frame_empty {| columns := holdings_columns ++ cols; values := f <$> rows |}
  = match rows with [] => true | _ => false end.
Proof. destruct rows; reflexivity. Qed.

(** X17: after a refresh of a table of holdings, the allocation chart is
    given exactly the rows whose current value is present, in table order,
    each with its current value and with its ticker cell as typed; it is not
    drawn when no row has a current value. *)
Theorem allocation_of_refreshed (yf : provider) (rows : list HoldingRow) :
  allocation (refreshed yf rows) =
  inr match List.filter (has_value yf) rows with
      | [] => None
      | valued =>
          Some {| pie_values :=
                    (fun row => derived_cell (value (fst (process_row yf row))))
                    <$> valued;
                  pie_labels := (fun row => text_of (Ticker row)) <$> valued |}
      end.
Proof.
  unfold allocation, refreshed. cbv zeta.
  set (c := fst (refresh_loop yf rows)).
  rewrite frame_empty_refreshed_rows.
  destruct rows as [|r0 rows0]; [reflexivity|].
  set (rows := r0 :: rows0) in *.
  unfold dropna. cbn [columns values col_indices].
  change (col_index "Current Value ($)" (holdings_columns ++ derived_columns))
    with (Some 5%nat).
  cbn [existsb]. rewrite filter_fmap.
  rewrite (filter_ext _ (has_value yf)).
  2:{ intros row. unfold cell_at. cbn [cells_of_row derived_cells app fmap
        list_fmap lookup list_lookup default from_option].
      unfold id. rewrite orb_false_r, is_missing_column_cell, negb_involutive.
      reflexivity. }
  rewrite frame_empty_refreshed_rows.
  destruct (List.filter (has_value yf) rows) as [|v valued] eqn:Hf;
    [reflexivity|].
  cbn [columns values].
  change (col_index "Current Value ($)" (holdings_columns ++ derived_columns))
    with (Some 5%nat).
  change (col_index "Ticker" (holdings_columns ++ derived_columns))
    with (Some 0%nat).
  cbv beta iota. rewrite <- !list_fmap_compose. do 3 f_equal.
  apply list_fmap_ext. intros i row Hrow.
  assert (Hin : In row (List.filter (has_value yf) rows)).
  { rewrite Hf. apply list_elem_of_In. eapply list_elem_of_lookup_2, Hrow. }
  apply filter_In in Hin as [_ Hv].
  unfold has_value in Hv. cbn. unfold cell_at.
  cbn [cells_of_row derived_cells app lookup list_lookup default from_option].
  unfold id. apply column_cell_notna, Hv.
Qed.

(** X18: after a refresh of a table of holdings, the price comparison chart
    is given exactly the rows that have a current price, a target of the
    user or an analyst target, in table order, indexed by the ticker cell as
    typed, with these three numbers under the labels Current Price, Your
    Target and Analyst Target, a missing price or analyst target being NaN
    when another row of the table has one; it is not drawn when no row has
    any of the three. *)
Theorem price_comparison_of_refreshed (yf : provider) (rows : list HoldingRow) :
  price_comparison (refreshed yf rows) =
  inr match List.filter (has_any_price yf) rows with
      | [] => None
      | kept =>
          let c := fst (refresh_loop yf rows) in
          Some {| bar_index := (fun row => text_of (Ticker row)) <$> kept;
                  bar_columns := ["Current Price"; "Your Target";
                                  "Analyst Target"];
                  bar_rows :=
                    (fun row =>
                       [column_cell (existsb has (current_prices c))
                                    (price (fst (process_row yf row)));
                        derived_cell (YourTargetPrice row);
                        column_cell (existsb has (analyst_targets c))
                                    (analyst (fst (process_row yf row)))])
                    <$> kept |}
      end.
Proof.
  unfold price_comparison, refreshed. cbv zeta.
  set (c := fst (refresh_loop yf rows)).
  rewrite frame_empty_refreshed_rows.
  destruct rows as [|r0 rows0]; [reflexivity|].
  set (rows := r0 :: rows0) in *.
  unfold dropna. cbn [columns values].
  change (col_indices ["Current Price"; "Your Target Price ($)"; "Analyst Target"]
            (holdings_columns ++ derived_columns))
    with (@inr string _ [4; 3; 9]%nat).
  cbn [forallb]. rewrite filter_fmap.
  rewrite (filter_ext _ (has_any_price yf)).
  2:{ intros row. unfold cell_at, has_any_price.
      cbn [cells_of_row derived_cells app fmap list_fmap lookup list_lookup
           default from_option].
      unfold id.
      rewrite andb_true_r, !is_missing_column_cell, is_missing_derived_cell.
      destruct (Py.notna (price _)), (Py.notna (YourTargetPrice row)),
        (Py.notna (analyst _)); reflexivity. }
  rewrite frame_empty_refreshed_rows.
  destruct (List.filter (has_any_price yf) rows) as [|v kept]; [reflexivity|].
  cbn [columns values].
  change (col_index "Ticker" (holdings_columns ++ derived_columns))
    with (Some 0%nat).
  change (col_indices ["Current Price"; "Your Target Price ($)"; "Analyst Target"]
            (holdings_columns ++ derived_columns))
    with (@inr string _ [4; 3; 9]%nat).
  cbv beta iota. rewrite <- !list_fmap_compose. reflexivity.
Qed.

End ChartsMore.

(** ** The metrics *)

Section Metrics.

Local Open Scope float_scope.

(** A sum that does not start from [-0.0] is not [-0.0]. *)
Lemma fold_add_not_neg_zero (l : list float) :
  forall a : float,
    Prim2SF a <> S754_zero true ->
    Prim2SF (fold_left (fun acc x => acc + x) l a) <> S754_zero true.
Proof.
  induction l as [|x l IH]; intros a Ha; cbn; [exact Ha|].
  apply IH, add_not_neg_zero, Ha.
Qed.

Lemma sum_not_neg_zero (l : list float) : Prim2SF (Py.sum l) <> S754_zero true.
Proof.
  apply fold_add_not_neg_zero. rewrite Prim2SF_zero. discriminate.
Qed.

(** A total that is zero prints without a sign. *)
Lemma format_zero_sum (l : list float) :
  (Py.sum l =? 0) = true -> format_2f false true (Py.sum l) = "0.00"%string.
Proof.
  intros [s Hs]%eqb_zero_SF. unfold format_2f. rewrite Hs.
  destruct s; [|reflexivity].
  exfalso. exact (sum_not_neg_zero l Hs).
Qed.

(** X20: when the total invested is zero, the metric of the total invested
    reads $0.00, without a minus sign, and the delta under the profit reads
    +0.00% whatever the total profit is. *)
Theorem nothing_invested_metrics (c : Columns) :
  (total_cost (total_costs c) =? 0) = true ->
  metrics c =
  [ {| metric_label := "Total Portfolio Value";
       metric_value :=
         String "$" (format_2f false true (total_value (current_values c)));
       metric_delta := None |};
    {| metric_label := "Total Invested";
       metric_value := "$0.00";
       metric_delta := None |};
    {| metric_label := "Total Profit/Loss";
       metric_value :=
         String "$" (format_2f true true (total_profit (profits_dollar c)));
       metric_delta := Some "+0.00%"%string |} ].
Proof.
  intros H. unfold metrics. cbv zeta.
  rewrite delta_pct_eq, H.
  unfold total_cost in *. rewrite (format_zero_sum _ H). reflexivity.
Qed.

Lemma nothing_invested_witness :
  let c := fst (refresh_loop yf_aapl [holding "XYZ" 5 0]) in
  (total_cost (total_costs c) =? 0) = true
  /\ metrics c =
     [ {| metric_label := "Total Portfolio Value";
          metric_value := "$1,000.00";
          metric_delta := None |};
       {| metric_label := "Total Invested";
          metric_value := "$0.00";
          metric_delta := None |};
       {| metric_label := "Total Profit/Loss";
          metric_value := "$+0.00";
          metric_delta := Some "+0.00%"%string |} ].
Proof.
  intros c. split; [vm_compute; reflexivity|].
  rewrite (nothing_invested_metrics c); [|vm_compute; reflexivity].
  vm_compute. reflexivity.
Defined.

End Metrics.
